(** * Wallet inspection over a chain-indexing service (alchemy.mts)

    A shallow embedding of [src/alchemy.mts] and the properties its
    specification states about it.

    Conventions of the embedding.
    - A JavaScript number is a binary64 float ([PrimFloat.float]); a bigint
      is a [Z]; a string is a [string] of bytes.
    - [await]ed calls and property reads that can raise are sequenced in the
      [result] monad; [Throw] is a raised exception or a rejected promise.
    - A metadata object is a finite map from its own property names to
      values, with the [attributes] array kept in a field of its own.  The
      values are the scalars of the data model ([undefined], [null],
      booleans, numbers, strings).  A property an object does not own is
      looked up in [Object.prototype]: the matcher reads and writes under
      names in lower case, and of the members of [Object.prototype] only
      [constructor] and [__proto__] have such a name.
    - [toLowerCase] acts on the ASCII letters of a string.
    - The conversions of the language between strings and numbers
      ([StringToNumber], [NumberToString], [StringToBigInt]) and the calls
      of the indexing service are parameters of the development. *)

From Stdlib Require Import PrimFloat Ascii String ZArith NArith.
From Stdlib Require Uint63.
From stdpp Require Import gmap strings pretty list fin_maps.

Local Open Scope string_scope.
Local Open Scope list_scope.
Local Open Scope nat_scope.

(** ** Exceptions and the result monad *)

Inductive error :=
  | TypeError
  | SyntaxError
  | Rejected (reason : string).

Inductive result (A : Type) :=
  | Ok (a : A)
  | Throw (e : error).

Arguments Ok {A} a.
Arguments Throw {A} e.

#[global] Instance result_ret : MRet result := fun A a => Ok a.
#[global] Instance result_bind : MBind result := fun A B k m =>
  match m with
  | Ok a => k a
  | Throw e => Throw e
  end.

(** ** Scalars of the language *)

Inductive scalar :=
  | SUndefined
  | SNull
  | SBool (b : bool)
  | SNum (x : float)
  | SStr (s : string).

(** [ToBoolean] on numbers: [+0], [-0] and [NaN] are falsy. *)
Definition truthy_number (x : float) : bool :=
  negb (PrimFloat.eqb x 0%float) && negb (PrimFloat.is_nan x).

Definition truthy_string (s : string) : bool := negb (String.eqb s "").

Definition truthy (v : scalar) : bool :=
  match v with
  | SUndefined | SNull => false
  | SBool b => b
  | SNum x => truthy_number x
  | SStr s => truthy_string s
  end.

(** [a === b] on scalars. *)
Definition strict_eq (a b : scalar) : bool :=
  match a, b with
  | SUndefined, SUndefined => true
  | SNull, SNull => true
  | SBool x, SBool y => Bool.eqb x y
  | SNum x, SNum y => PrimFloat.eqb x y
  | SStr x, SStr y => String.eqb x y
  | _, _ => false
  end.

Definition number_of_bool (b : bool) : float := if b then 1%float else 0%float.

(** [String.prototype.toLowerCase], on the ASCII letters. *)
Definition lower_ascii (c : ascii) : ascii :=
  let n := N_of_ascii c in
  if ((65 <=? n) && (n <=? 90))%N then ascii_of_N (n + 32) else c.

Fixpoint toLowerCase (s : string) : string :=
  match s with
  | EmptyString => EmptyString
  | String c rest => String (lower_ascii c) (toLowerCase rest)
  end.

(** [v.toLowerCase()] for a value of type [any]: only a string has the
    method; [undefined] and [null] have no properties, and on a boolean or a
    number the member is [undefined] and the call raises. *)
Definition toLowerCaseOf (v : scalar) : result string :=
  match v with
  | SStr s => Ok (toLowerCase s)
  | _ => Throw TypeError
  end.

(** Two names are equal under case-insensitive comparison. *)
Definition same_name (a b : string) : Prop := toLowerCase a = toLowerCase b.

(** ** Metadata records *)

(** An element of [attributes], a [Record<string, any>] read at its keys
    [trait_type] and [value] ([SUndefined] for a missing key). *)
Record attribute := {
  trait_type : scalar;
  value : scalar;
}.

(** [NftMetadata]: the own scalar properties and [attributes?: Array<..>]
    ([None] when the property is missing or [undefined]).  The array lives
    in [attributes] only: a key ["attributes"] of [fields] is never read. *)
Record NftMetadata := {
  fields : gmap string scalar;
  attributes : option (list attribute);
}.

(** The members of [Object.prototype] whose name is its own lower case:
    [constructor], the function [Object], and the accessor [__proto__]. *)
Definition inherited (key : string) : bool :=
  String.eqb key "constructor" || String.eqb key "__proto__".

(** What [nftMetadata[k]] evaluates to: an own property, the attributes
    array, or, for a name the record does not own, the member of
    [Object.prototype] of that name ([Object] itself for [constructor],
    [Object.prototype] for [__proto__]). *)
Inductive property :=
  | Scalar (v : scalar)
  | Array (items : list attribute)
  | Inherited (key : string).

Definition get (m : NftMetadata) (k : string) : property :=
  if String.eqb k "attributes" then
    match attributes m with
    | Some items => Array items
    | None => Scalar SUndefined
    end
  else
    match fields m !! k with
    | Some v => Scalar v
    | None => if inherited k then Inherited k else Scalar SUndefined
    end.

(** [p !== v], [v] a scalar: an array or an inherited object is identical
    to no scalar. *)
Definition strict_neq (p : property) (v : scalar) : bool :=
  match p with
  | Scalar u => negb (strict_eq u v)
  | Array _ => true
  | Inherited _ => true
  end.

(** [Object.entries(filterMetadata).filter(([k, _]) => k !== "attributes")] *)
Definition topLevelAttrs (filterMetadata : NftMetadata) : list (string * scalar) :=
  filter (λ kv, kv.1 ≠ "attributes") (map_to_list (fields filterMetadata)).

(** The first loop of [filterNFTMetadata]: [Ok false] when the function
    returns [false] from inside the loop, [Ok true] when the loop runs to
    its end.  Reading a property of an absent record raises. *)
Fixpoint compareTopLevel (nftMetadata : option NftMetadata)
    (entries : list (string * scalar)) : result bool :=
  match entries with
  | [] => Ok true
  | (k, v) :: rest =>
      match nftMetadata with
      | None => Throw TypeError
      | Some m =>
          if strict_neq (get m (toLowerCase k)) v then Ok false
          else compareTopLevel nftMetadata rest
      end
  end.

(** The block guarded by
    [filterMetadata.attributes && filterMetadata.attributes.length > 0]:
    [false] when one of its two [return false] is taken. *)
Definition attributesGuard (nftMetadata : option NftMetadata)
    (filterMetadata : NftMetadata) : bool :=
  match attributes filterMetadata with
  | Some wanted =>
      if (0 <? length wanted)%nat then
        match nftMetadata with
        | None => false
        | Some m =>
            match attributes m with
            | None => false
            | Some owned => negb (length owned <? length wanted)%nat
            end
        end
      else true
  | None => true
  end.

(** The object [nestedAttrs]: its own properties, and whether its prototype
    is still [Object.prototype]. *)
Record NestedAttrs := {
  own : gmap string scalar;
  plain : bool;
}.

(** [{} as Record<string, any>] *)
Definition emptyObject : NestedAttrs := {| own := ∅; plain := true |}.

(** [nestedAttrs[key] = v].  Under the name [__proto__] an object with the
    prototype [Object.prototype] has the setter it inherits: given [null]
    the setter removes the prototype, given another scalar it does nothing,
    and no property is stored.  Every other assignment stores an own
    property. *)
Definition assign (nestedAttrs : NestedAttrs) (key : string) (v : scalar)
    : NestedAttrs :=
  if String.eqb key "__proto__" && plain nestedAttrs then
    match v with
    | SNull => {| own := own nestedAttrs; plain := false |}
    | _ => nestedAttrs
    end
  else {| own := <[key := v]> (own nestedAttrs); plain := plain nestedAttrs |}.

(** What the function [Object] and the object [Object.prototype] convert to
    when [==] compares them with a scalar (the text is that of Node). *)
Definition primitiveOf (key : string) : string :=
  if String.eqb key "constructor" then "function Object() { [native code] }"
  else "[object Object]".

(** [nestedAttrs[key]] as [==] against a scalar sees it: the own property,
    or the primitive of the inherited member, or [undefined].  (An object
    is loosely equal to a scalar exactly when its primitive is.) *)
Definition read (nestedAttrs : NestedAttrs) (key : string) : scalar :=
  match own nestedAttrs !! key with
  | Some v => v
  | None =>
      if plain nestedAttrs && inherited key then SStr (primitiveOf key)
      else SUndefined
  end.

(** [nestedAttrs[nftAttr["trait_type"].toLowerCase()] = nftAttr["value"]]
    for every attribute of the record, in order. *)
Fixpoint buildNested (owned : list attribute) (nestedAttrs : NestedAttrs)
    : result NestedAttrs :=
  match owned with
  | [] => Ok nestedAttrs
  | nftAttr :: rest =>
      name ← toLowerCaseOf (trait_type nftAttr);
      buildNested rest (assign nestedAttrs name (value nftAttr))
  end.

Section Language.

(** [ToNumber] on a string. *)
Variable StringToNumber : string → float.

(** [a == b] on scalars (IsLooselyEqual). *)
Definition loose_eq (a b : scalar) : bool :=
  match a, b with
  | (SUndefined | SNull), (SUndefined | SNull) => true
  | (SUndefined | SNull), _ => false
  | _, (SUndefined | SNull) => false
  | SNum x, SNum y => PrimFloat.eqb x y
  | SStr x, SStr y => String.eqb x y
  | SBool x, SBool y => Bool.eqb x y
  | SNum x, SStr y => PrimFloat.eqb x (StringToNumber y)
  | SStr x, SNum y => PrimFloat.eqb (StringToNumber x) y
  | SBool x, SNum y => PrimFloat.eqb (number_of_bool x) y
  | SNum x, SBool y => PrimFloat.eqb x (number_of_bool y)
  | SBool x, SStr y => PrimFloat.eqb (number_of_bool x) (StringToNumber y)
  | SStr x, SBool y => PrimFloat.eqb (StringToNumber x) (number_of_bool y)
  end.

(** The second loop over [filterMetadata.attributes]. *)
Fixpoint compareNested (nestedAttrs : NestedAttrs)
    (wanted : list attribute) : result bool :=
  match wanted with
  | [] => Ok true
  | filterAttr :: rest =>
      name ← toLowerCaseOf (trait_type filterAttr);
      if negb (loose_eq (read nestedAttrs name) (value filterAttr))
      then Ok false
      else compareNested nestedAttrs rest
  end.

Definition filterNFTMetadata (nftMetadata filterMetadata : option NftMetadata)
    : result bool :=
  match filterMetadata with
  | None => Ok true
  | Some f =>
      passed ← compareTopLevel nftMetadata (topLevelAttrs f);
      if negb passed then Ok false
      else if negb (attributesGuard nftMetadata f) then Ok false
      else
        match nftMetadata with
        | None => Ok false
        | Some m =>
            match attributes m, attributes f with
            | Some owned, Some wanted =>
                nestedAttrs ← buildNested owned emptyObject;
                compareNested nestedAttrs wanted
            | _, _ => Ok true
            end
        end
  end.

End Language.

(** ** The indexing service and the four inspection flows *)

Record TokenAmount := {
  balance : Z;
  decimals : float;
}.

(** [getTokenMetadata]'s answer, read at [decimals : number | null]. *)
Record TokenMetadataResponse := {
  md_decimals : option float;
}.

(** An element of [getTokenBalances(..).tokenBalances]. *)
Record TokenBalance := {
  contractAddress : string;
  tokenBalance : option string;
}.

(** The argument of [getAssetTransfers]. *)
Record AssetTransfersParams := {
  fromBlock : string;
  toBlock : string;
  fromAddress : string;
  excludeZeroValue : bool;
  category : list string;
  pageKey : option string;
}.

(** A transfer, with [to : string | null]. *)
Record Transfer := {
  tr_from : string;
  tr_to : option string;
  tr_hash : string;
  tr_value : option float;
}.

(** [getAssetTransfers]'s answer; [next_pageKey] is its [pageKey?: string]. *)
Record AssetTransfersResponse := {
  transfers : list Transfer;
  next_pageKey : option string;
}.

Record TransactionReceipt := {
  transactionHash : string;
}.

(** An element of [contractDeploymentTransactions(..).txns]. *)
Record DeploymentTxn := {
  txn_from : string;
  txn_to : option string;
  txn_hash : option string;
  txn_value : Z;
}.

(** An element of [getNftsForOwner(..).ownedNfts]; [raw_metadata] is
    [raw.metadata], [None] when it is falsy. *)
Record OwnedNft := {
  tokenId : string;
  nft_balance : string;
  tokenType : string;
  raw_metadata : option NftMetadata;
}.

(** The [output] object of [nft]. *)
Record NftOutput := {
  out_balance : float;
  nftData : list NftMetadata;
}.

Definition zeroAmount : TokenAmount := {| balance := 0; decimals := 0%float |}.

Definition emptyOutput : NftOutput := {| out_balance := 0%float; nftData := [] |}.

(** [transactionConfig] of [contractDeploymentTransactions]. *)
Definition transactionConfig (walletAddress : string) : AssetTransfersParams :=
  {| fromBlock := "0x0"; toBlock := "latest"; fromAddress := walletAddress;
     excludeZeroValue := false; category := ["external"]; pageKey := None |}.

(** [{ ...transactionConfig, pageKey: pageKey }] *)
Definition withPageKey (config : AssetTransfersParams) (key : string)
    : AssetTransfersParams :=
  {| fromBlock := fromBlock config; toBlock := toBlock config;
     fromAddress := fromAddress config;
     excludeZeroValue := excludeZeroValue config;
     category := category config; pageKey := Some key |}.

(** The condition of [while (response.pageKey)]: the cursor the loop goes on
    with, if any (an empty string is falsy). *)
Definition cursor (response : AssetTransfersResponse) : option string :=
  match next_pageKey response with
  | Some key => if truthy_string key then Some key else None
  | None => None
  end.

(** [{ ...nft.raw.metadata, tokenId: Number(nft.tokenId), tokenType: nft.tokenType }] *)
Definition tagged (StringToNumber : string → float) (m : NftMetadata)
    (nft : OwnedNft) : NftMetadata :=
  {| fields := <["tokenType" := SStr (tokenType nft)]>
                 (<["tokenId" := SNum (StringToNumber (tokenId nft))]> (fields m));
     attributes := attributes m |}.

(** *** [Promise.all]

    The promises settle in some order, given as the list of their
    positions; a fulfilment stores its value in the slot of its position, a
    rejection rejects the whole.  The combined promise is fulfilled once no
    slot is empty; [None] is a promise that is still pending. *)
Fixpoint settle {A} (order : list nat) (promises : list (result A))
    (values : list (option A)) : result (list (option A)) :=
  match order with
  | [] => Ok values
  | i :: rest =>
      match promises !! i with
      | Some (Ok v) => settle rest promises (<[i := Some v]> values)
      | Some (Throw e) => Throw e
      | None => settle rest promises values
      end
  end.

Definition PromiseAll {A} (order : list nat) (promises : list (result A))
    : option (result (list A)) :=
  match settle order promises (replicate (length promises) None) with
  | Ok values => option_map Ok (mapM id values)
  | Throw e => Some (Throw e)
  end.

Section Flows.

Variable StringToNumber : string → float.
Variable NumberToString : float → string.
(** [StringToBigInt]: [None] where [BigInt(s)] raises a [SyntaxError]. *)
Variable StringToBigInt : string → option Z.

Variable getTokenMetadata : string → result TokenMetadataResponse.
Variable getTokenBalances : string → list string → result (list TokenBalance).
Variable getBalance : string → string → result Z.
(** The transfer source has a state of its own, which a call may change. *)
Variable Source : Type.
Variable getAssetTransfers :
  Source → AssetTransfersParams → result AssetTransfersResponse * Source.
Variable getTransactionReceipt : string → result (option TransactionReceipt).
Variable getNftsForOwner : string → list string → result (list OwnedNft).

Definition BigInt (s : string) : result Z :=
  match StringToBigInt s with
  | Some z => Ok z
  | None => Throw SyntaxError
  end.

(** *** ERC20 token balance *)

(** The loop over [result.tokenBalances], with its [return] inside. *)
Fixpoint scanTokenBalances (contract : string) (metadata : TokenMetadataResponse)
    (tokenBalances : list TokenBalance) : result TokenAmount :=
  match tokenBalances with
  | [] => Ok zeroAmount
  | tb :: rest =>
      match tokenBalance tb, md_decimals metadata with
      | Some raw, Some d =>
          if String.eqb (contractAddress tb) contract
             && truthy_string raw && truthy_number d
          then b ← BigInt raw; Ok {| balance := b; decimals := d |}
          else scanTokenBalances contract metadata rest
      | _, _ => scanTokenBalances contract metadata rest
      end
  end.

Definition erc20 (walletAddress : option string) (contract : string)
    : result TokenAmount :=
  match walletAddress with
  | None => Ok zeroAmount
  | Some wallet =>
      metadata ← getTokenMetadata contract;
      tokenBalances ← getTokenBalances wallet [contract];
      scanTokenBalances contract metadata tokenBalances
  end.

(** *** Native token balance *)

Definition nativeToken (walletAddress : option string) : result TokenAmount :=
  match walletAddress with
  | None => Ok zeroAmount
  | Some wallet =>
      b ← getBalance wallet "latest";
      Ok {| balance := b; decimals := 18%float |}
  end.

(** *** Contract deployment transactions *)

(** What a run of the paging loop leaves behind: its outcome, the
    arguments of the calls to [getAssetTransfers] in the order they were
    made, and the state of the source. *)
Record Drained := {
  outcome : result (list Transfer);
  calls : list AssetTransfersParams;
  source_after : Source;
}.

(** [while (response.pageKey) { .. }]; [None] when the loop has not come
    to its end within [fuel] rounds. *)
Fixpoint fetchRemaining (fuel : nat) (src : Source) (config : AssetTransfersParams)
    (response : AssetTransfersResponse) (acc : list Transfer)
    (issued : list AssetTransfersParams) : option Drained :=
  match cursor response with
  | None => Some {| outcome := Ok acc; calls := issued; source_after := src |}
  | Some key =>
      match fuel with
      | O => None
      | S fuel' =>
          let query := withPageKey config key in
          match getAssetTransfers src query with
          | (Throw e, src') =>
              Some {| outcome := Throw e; calls := issued ++ [query];
                      source_after := src' |}
          | (Ok response', src') =>
              fetchRemaining fuel' src' config response'
                (acc ++ transfers response') (issued ++ [query])
          end
      end
  end.

(** The first call and the loop (lines 150 to 169). *)
Definition drainTransfers (fuel : nat) (src : Source) (walletAddress : string)
    : option Drained :=
  let config := transactionConfig walletAddress in
  match getAssetTransfers src config with
  | (Throw e, src') =>
      Some {| outcome := Throw e; calls := [config]; source_after := src' |}
  | (Ok response, src') =>
      fetchRemaining fuel src' config response (transfers response) [config]
  end.

(** [transfers.filter((transfer) => transfer.to === null)] *)
Definition deployments (drained : list Transfer) : list Transfer :=
  filter (λ transfer, tr_to transfer = None) drained.

Definition deploymentOf (walletAddress : string)
    (receipt : option TransactionReceipt) : DeploymentTxn :=
  {| txn_from := walletAddress; txn_to := None;
     txn_hash := transactionHash <$> receipt; txn_value := 0 |}.

(** From the drained transfers to the result (lines 173 to 192); [order]
    is the order in which the receipt fetches settle. *)
Definition deploymentTransactions (order : list nat) (walletAddress : string)
    (drained : list Transfer) : option (result (list DeploymentTxn)) :=
  let txHashes := map tr_hash (deployments drained) in
  let promises := map getTransactionReceipt txHashes in
  match PromiseAll order promises with
  | None => None
  | Some (Throw e) => Some (Throw e)
  | Some (Ok txReceipts) => Some (Ok (map (deploymentOf walletAddress) txReceipts))
  end.

Definition contractDeploymentTransactions (fuel : nat) (order : list nat)
    (src : Source) (walletAddress : string)
    : option (result (list DeploymentTxn)) :=
  match drainTransfers fuel src walletAddress with
  | None => None
  | Some drained =>
      match outcome drained with
      | Throw e => Some (Throw e)
      | Ok all => deploymentTransactions order walletAddress all
      end
  end.

(** *** NFT inventory *)

(** [v.toString()] *)
Definition toStringOf (v : scalar) : result string :=
  match v with
  | SUndefined | SNull => Throw TypeError
  | SBool b => Ok (if b then "true" else "false")
  | SNum x => Ok (NumberToString x)
  | SStr s => Ok s
  end.

(** The value of [match] when the loop body reaches [if (match)]. *)
Definition nftMatches (nftMetadata : option NftMetadata) (nft : OwnedNft)
    : result bool :=
  let checked : result bool :=
    match nftMetadata, raw_metadata nft with
    | Some _, Some m => filterNFTMetadata StringToNumber (Some m) nftMetadata
    | _, _ => Ok true
    end in
  matched ← checked;
  match nftMetadata with
  | None => Throw TypeError
  | Some f =>
      let wanted := default SUndefined (fields f !! "tokenId") in
      if truthy wanted then
        if (matched : bool) then
          s ← toStringOf wanted; Ok (String.eqb (tokenId nft) s)
        else Ok false
      else Ok matched
  end.

(** What [if (match) { .. }] does to [output]. *)
Definition addToOutput (output : NftOutput) (nft : OwnedNft) : NftOutput :=
  let n := StringToNumber (nft_balance nft) in
  {| out_balance :=
       if PrimFloat.is_nan n then out_balance output
       else PrimFloat.add (out_balance output) n;
     nftData :=
       match raw_metadata nft with
       | Some m => nftData output ++ [tagged StringToNumber m nft]
       | None => nftData output
       end |}.

(** One round of [for (const nft of result.ownedNfts)]. *)
Definition inspect (nftMetadata : option NftMetadata) (output : NftOutput)
    (nft : OwnedNft) : result NftOutput :=
  matched ← nftMatches nftMetadata nft;
  Ok (if (matched : bool) then addToOutput output nft else output).

Fixpoint inspectAll (nftMetadata : option NftMetadata) (ownedNfts : list OwnedNft)
    (output : NftOutput) : result NftOutput :=
  match ownedNfts with
  | [] => Ok output
  | nft :: rest =>
      output' ← inspect nftMetadata output nft;
      inspectAll nftMetadata rest output'
  end.

Definition nft (walletAddress : option string) (nftContractAddress : string)
    (nftMetadata : option NftMetadata) : result NftOutput :=
  match walletAddress with
  | None => Ok emptyOutput
  | Some wallet =>
      result ← getNftsForOwner wallet [nftContractAddress];
      inspectAll nftMetadata result emptyOutput
  end.

End Flows.

(** ** Reference conversions

    Instances of the conversions of the language, used to run the flows on
    concrete inputs.  Each agrees with ECMAScript on the domain its comment
    names and is meant for inputs of that domain only. *)

Definition digit_value (c : ascii) : option Z :=
  let n := Z.of_N (N_of_ascii c) in
  if ((48 <=? n) && (n <=? 57))%Z then Some (n - 48)%Z else None.

Definition hex_digit_value (c : ascii) : option Z :=
  let n := Z.of_N (N_of_ascii c) in
  if ((48 <=? n) && (n <=? 57))%Z then Some (n - 48)%Z
  else if ((97 <=? n) && (n <=? 102))%Z then Some (n - 87)%Z
  else if ((65 <=? n) && (n <=? 70))%Z then Some (n - 55)%Z
  else None.

Fixpoint numeral_value (digit : ascii → option Z) (radix : Z) (s : string)
    (acc : Z) : option Z :=
  match s with
  | EmptyString => Some acc
  | String c rest =>
      match digit c with
      | Some d => numeral_value digit radix rest (radix * acc + d)%Z
      | None => None
      end
  end.

(** [ToNumber] on the empty string, on the unsigned decimal numerals below
    [2^63], and on the strings with a character that no numeric literal
    has. *)
Definition decimalToNumber (s : string) : float :=
  match s with
  | EmptyString => 0%float
  | _ =>
      match numeral_value digit_value 10 s 0 with
      | Some z =>
          if (z <? 2 ^ 63)%Z then PrimFloat.of_uint63 (Uint63.of_Z z)
          else PrimFloat.nan
      | None => PrimFloat.nan
      end
  end.

(** [BigInt] on the empty string, on the unsigned decimal numerals and on
    the hexadecimal numerals with prefix [0x]; a [SyntaxError] on the
    strings with a character that no integer literal has. *)
Definition literalToBigInt (s : string) : option Z :=
  match s with
  | EmptyString => Some 0%Z
  | String "0" (String "x" (String c rest)) =>
      numeral_value hex_digit_value 16 (String c rest) 0
  | _ => numeral_value digit_value 10 s 0
  end.

(** [Number.prototype.toString] on the non-negative integers below [2^53]. *)
Definition integerToString (x : float) : string :=
  pretty (Uint63.to_Z (PrimFloat.normfr_mantissa (fst (PrimFloat.frshiftexp x)))
          / 2 ^ (53 - (Uint63.to_Z (snd (PrimFloat.frshiftexp x)) - 2101)))%Z.

(** ** Notions the statements are written with *)

(** An attribute whose [trait_type] is a string. *)
Definition named (a : attribute) : Prop := ∃ s, trait_type a = SStr s.

(** The value of the last attribute of [owned] whose trait name, in lower
    case, is [key]. *)
Fixpoint lastTrait (owned : list attribute) (key : string) : option scalar :=
  match owned with
  | [] => None
  | a :: rest =>
      match lastTrait rest key with
      | Some v => Some v
      | None =>
          match trait_type a with
          | SStr s => if String.eqb (toLowerCase s) key then Some (value a) else None
          | _ => None
          end
      end
  end.

(** The filter pair [a] is met by the attributes [owned]: what [owned] holds
    last under the name of [a] ([undefined] when it has no such name) is
    loosely equal to the value of [a]. *)
Definition agrees (StringToNumber : string → float) (owned : list attribute)
    (a : attribute) : Prop :=
  ∃ s, trait_type a = SStr s ∧
       loose_eq StringToNumber
         (default SUndefined (lastTrait owned (toLowerCase s))) (value a) = true.

(** Some attribute of [owned] has the name [name], compared without case,
    and a value loosely equal to [v]. *)
Definition has_trait (StringToNumber : string → float) (owned : list attribute)
    (name : string) (v : scalar) : Prop :=
  ∃ a s, a ∈ owned ∧ trait_type a = SStr s ∧ same_name s name ∧
         loose_eq StringToNumber (value a) v = true.

(** The attributes list of a record, empty when the record or the list is
    absent. *)
Definition ownedAttributes (nftMetadata : option NftMetadata) : list attribute :=
  match nftMetadata with
  | Some m => default [] (attributes m)
  | None => []
  end.

(** *** Inputs of the worked examples *)

Definition emptyFilter : NftMetadata := {| fields := ∅; attributes := None |}.

Definition trait (name v : string) : attribute :=
  {| trait_type := SStr name; value := SStr v |}.

(** [{ attributes: [{ trait_type: "Color", value: "Red" }] }] *)
Definition colorRed : NftMetadata :=
  {| fields := ∅; attributes := Some [trait "Color" "Red"] |}.

(** [{ Name: "x" }] *)
Definition capitalName : NftMetadata :=
  {| fields := {["Name" := SStr "x"]}; attributes := None |}.

(** [{ name: "x" }] *)
Definition lowerName : NftMetadata :=
  {| fields := {["name" := SStr "x"]}; attributes := None |}.

(** [{ name: "x", attributes: [{ trait_type: "Color", value: "Red" }] }] *)
Definition namedColorRed : NftMetadata :=
  {| fields := {["name" := SStr "x"]}; attributes := Some [trait "Color" "Red"] |}.

(** A record with two attributes named [color] up to case. *)
Definition twoColors : NftMetadata :=
  {| fields := ∅; attributes := Some [trait "Color" "Red"; trait "color" "Blue"] |}.

(** Two attributes, the second with no [trait_type]. *)
Definition twoTraits : NftMetadata :=
  {| fields := {["name" := SStr "x"]};
     attributes := Some [trait "Color" "Red";
                         {| trait_type := SUndefined; value := SStr "Happy" |}] |}.

(** A filter asking for three attributes, two of them those of [twoTraits]. *)
Definition threeTraits : NftMetadata :=
  {| fields := {["name" := SStr "x"]};
     attributes := Some [trait "Color" "Red";
                         {| trait_type := SUndefined; value := SStr "Happy" |};
                         trait "Size" "L"] |}.

Section PagedSource.

Variable Source : Type.
Variable getAssetTransfers :
  Source → AssetTransfersParams → result AssetTransfersResponse * Source.

(** [Pages config src query pages src']: asked [query] in the state [src],
    and then, for as long as its answer carries a cursor, asked [config]
    with that cursor, the source answers with the pages [pages], of which
    the last and only the last carries no cursor, and is left in the
    state [src']. *)
Inductive Pages (config : AssetTransfersParams)
  : Source → AssetTransfersParams → list AssetTransfersResponse → Source → Prop :=
  | Pages_last src query page src' :
      getAssetTransfers src query = (Ok page, src') →
      cursor page = None →
      Pages config src query [page] src'
  | Pages_next src query page key src1 pages src' :
      getAssetTransfers src query = (Ok page, src1) →
      cursor page = Some key →
      Pages config src1 (withPageKey config key) pages src' →
      Pages config src query (page :: pages) src'.

End PagedSource.

(** The queries that follow the first: [config] with the cursor of each page
    that carries one. *)
Definition followUps (config : AssetTransfersParams)
    (pages : list AssetTransfersResponse) : list AssetTransfersParams :=
  omap (λ page, option_map (withPageKey config) (cursor page)) pages.

(** The slots after the promises at the positions [order], all of them
    fulfilled with the values [vs], have settled. *)
Definition stored {A} (vs : list A) (order : list nat) (values : list (option A))
    : list (option A) :=
  foldl (λ slots i, match vs !! i with
                    | Some v => <[i := Some v]> slots
                    | None => slots
                    end) values order.

(** The token balances entry the loop of [erc20] stops at: the address is
    that of the contract and the balance is a non-empty string. *)
Definition held (contract : string) (tb : TokenBalance) : bool :=
  String.eqb (contractAddress tb) contract
  && match tokenBalance tb with
     | Some raw => truthy_string raw
     | None => false
     end.

(** A count as a number. *)
Definition number_of_nat (n : nat) : float :=
  PrimFloat.of_uint63 (Uint63.of_Z (Z.of_nat n)).

(** *** More inputs of the worked examples *)

Definition transfer (hash : string) (to : option string) : Transfer :=
  {| tr_from := "0xwallet"; tr_to := to; tr_hash := hash; tr_value := Some 0%float |}.

Definition page1 : AssetTransfersResponse :=
  {| transfers := [transfer "0xa1" (Some "0xb"); transfer "0xa2" None];
     next_pageKey := Some "k1" |}.

Definition page2 : AssetTransfersResponse :=
  {| transfers := [transfer "0xa3" (Some "0xb"); transfer "0xa4" None];
     next_pageKey := Some "k2" |}.

Definition page3 : AssetTransfersResponse :=
  {| transfers := [transfer "0xa5" (Some "0xb")]; next_pageKey := None |}.

(** A source of three pages, which serves a page by the cursor it is asked
    with and counts the calls made to it. *)
Definition threePages (n : nat) (query : AssetTransfersParams)
    : result AssetTransfersResponse * nat :=
  (match pageKey query with
   | None => Ok page1
   | Some key =>
       if String.eqb key "k1" then Ok page2
       else if String.eqb key "k2" then Ok page3
       else Throw (Rejected "unknown page key")
   end, S n).

(** A source of one page. *)
Definition onePage (n : nat) (query : AssetTransfersParams)
    : result AssetTransfersResponse * nat :=
  (Ok page3, S n).

Definition receiptOf (hash : string) : result (option TransactionReceipt) :=
  Ok (if String.eqb hash "0xa4" then None
      else Some {| transactionHash := hash |}).

Definition decimals18 (contract : string) : result TokenMetadataResponse :=
  Ok {| md_decimals := Some 18%float |}.

(** The balance of the contract ["0xc"] could not be read. *)
Definition balanceUnread (wallet : string) (contracts : list string)
    : result (list TokenBalance) :=
  Ok [{| contractAddress := "0xc"; tokenBalance := None |}].

Definition balanceSixteen (wallet : string) (contracts : list string)
    : result (list TokenBalance) :=
  Ok [{| contractAddress := "0xd"; tokenBalance := Some "0x5" |};
      {| contractAddress := "0xc"; tokenBalance := Some "0x10" |}].

(** An NFT with metadata and a balance that is no number. *)
Definition oddBalance : OwnedNft :=
  {| tokenId := "3"; nft_balance := "abc"; tokenType := "ERC1155";
     raw_metadata := Some capitalName |}.

(** An NFT with no metadata. *)
Definition bare : OwnedNft :=
  {| tokenId := "7"; nft_balance := "1"; tokenType := "ERC721";
     raw_metadata := None |}.

(** [{ tokenId: 0 }] *)
Definition tokenZero : NftMetadata :=
  {| fields := {["tokenId" := SNum 0%float]}; attributes := None |}.

Definition ownsBare (wallet : string) (contracts : list string)
    : result (list OwnedNft) :=
  Ok [bare].

(** ** Further notions and inputs *)

(** An attribute whose [trait_type] is no string. *)
Definition unnamed (a : attribute) : Prop := ∀ s, trait_type a ≠ SStr s.

(** Every top-level field of the filter [f] is found, identical, in the
    record [m] under its lower-cased name. *)
Definition topLevelMet (m f : NftMetadata) : Prop :=
  ∀ k v, fields f !! k = Some v → k ≠ "attributes" →
         strict_neq (get m (toLowerCase k)) v = false.

(** The keys under which the attributes of a record are stored: their trait
    names, in lower case. *)
Definition traitKeys (owned : list attribute) : list string :=
  omap (λ a, match trait_type a with
             | SStr s => Some (toLowerCase s)
             | _ => None
             end) owned.

(** The entry of [nftData] an owned NFT gives rise to, if it has metadata. *)
Definition entryOf (StringToNumber : string → float) (owned : OwnedNft)
    : option NftMetadata :=
  option_map (λ m, tagged StringToNumber m owned) (raw_metadata owned).

Section FailingSource.

Variable Source : Type.
Variable getAssetTransfers :
  Source → AssetTransfersParams → result AssetTransfersResponse * Source.

(** [PagesFail config src query pages e src']: asked [query] in the state
    [src], and then [config] with the cursor of each answer, the source
    answers with the pages [pages], each of which carries a cursor, and
    then fails with [e], left in the state [src']. *)
Inductive PagesFail (config : AssetTransfersParams)
  : Source → AssetTransfersParams → list AssetTransfersResponse → error
    → Source → Prop :=
  | PagesFail_now src query e src' :
      getAssetTransfers src query = (Throw e, src') →
      PagesFail config src query [] e src'
  | PagesFail_later src query page key src1 pages e src' :
      getAssetTransfers src query = (Ok page, src1) →
      cursor page = Some key →
      PagesFail config src1 (withPageKey config key) pages e src' →
      PagesFail config src query (page :: pages) e src'.

End FailingSource.

(** A source whose second page cannot be fetched. *)
Definition secondPageFails (n : nat) (query : AssetTransfersParams)
    : result AssetTransfersResponse * nat :=
  (match pageKey query with
   | None => Ok page1
   | Some _ => Throw (Rejected "timeout")
   end, S n).

(** A source that answers every query with a page and a cursor. *)
Definition endless (n : nat) (query : AssetTransfersParams)
    : result AssetTransfersResponse * nat :=
  (Ok page1, S n).

(** The receipt of ["0xa4"] cannot be fetched. *)
Definition receiptUnlessA4 (hash : string) : result (option TransactionReceipt) :=
  if String.eqb hash "0xa4" then Throw (Rejected "timeout")
  else Ok (Some {| transactionHash := hash |}).

(** [{ name: "x", attributes: [{ trait_type: "Size", value: "L" },
      { trait_type: "Color", value: "Red" }] }] *)
Definition sizeAndColor : NftMetadata :=
  {| fields := {["name" := SStr "x"]};
     attributes := Some [trait "Size" "L"; trait "Color" "Red"] |}.

(** [{ tokenId: "7" }] *)
Definition tokenSeven : NftMetadata :=
  {| fields := {["tokenId" := SStr "7"]}; attributes := None |}.

(** The NFT of token id "7", with metadata. *)
Definition seven : OwnedNft :=
  {| tokenId := "7"; nft_balance := "2"; tokenType := "ERC1155";
     raw_metadata := Some lowerName |}.

Definition ownsThree (wallet : string) (contracts : list string)
    : result (list OwnedNft) :=
  Ok [seven; bare; oddBalance].

Definition ownsNothing (wallet : string) (contracts : list string)
    : result (list OwnedNft) :=
  Ok [].

(** An NFT whose metadata has an attribute with no trait name. *)
Definition malformed : OwnedNft :=
  {| tokenId := "9"; nft_balance := "1"; tokenType := "ERC721";
     raw_metadata := Some twoTraits |}.

Definition ownsMalformed (wallet : string) (contracts : list string)
    : result (list OwnedNft) :=
  Ok [seven; malformed; bare].

(** A filter pair named after no member of [Object.prototype]: its name, in
    lower case, is neither [constructor] nor [__proto__]. *)
Definition ordinary (a : attribute) : Prop :=
  ∀ s, trait_type a = SStr s → inherited (toLowerCase s) = false.

(** The filter pair [a] is met by the object [nestedAttrs]: what the object
    reads under the name of [a] is loosely equal to the value of [a]. *)
Definition passes (StringToNumber : string → float) (nestedAttrs : NestedAttrs)
    (a : attribute) : Prop :=
  ∃ s, trait_type a = SStr s ∧
       loose_eq StringToNumber (read nestedAttrs (toLowerCase s)) (value a) = true.

(** [{ attributes: [{ trait_type: "constructor", value: null }] }] *)
Definition constructorNull : NftMetadata :=
  {| fields := ∅;
     attributes := Some [{| trait_type := SStr "constructor"; value := SNull |}] |}.

(** The follow-up calls of the paging loop of
    [contractDeploymentTransactions] within [fuel] rounds, whether or not
    the loop has come to its end by then: the arguments of the calls to
    [getAssetTransfers] made by [while (response.pageKey) { .. }], in the
    order they are made. *)
Fixpoint loopQueries {Source : Type}
    (getAssetTransfers :
       Source → AssetTransfersParams → result AssetTransfersResponse * Source)
    (fuel : nat) (src : Source) (config : AssetTransfersParams)
    (response : AssetTransfersResponse) : list AssetTransfersParams :=
  match cursor response with
  | None => []
  | Some key =>
      match fuel with
      | O => []
      | S fuel' =>
          let query := withPageKey config key in
          query :: match getAssetTransfers src query with
                   | (Throw e, src') => []
                   | (Ok response', src') =>
                       loopQueries getAssetTransfers fuel' src' config response'
                   end
      end
  end.

(** All the calls to [getAssetTransfers] of lines 150 to 169 within [fuel]
    rounds of the loop: the first call and the follow-up calls. *)
Definition queriesWithin {Source : Type}
    (getAssetTransfers :
       Source → AssetTransfersParams → result AssetTransfersResponse * Source)
    (fuel : nat) (src : Source) (walletAddress : string)
    : list AssetTransfersParams :=
  let config := transactionConfig walletAddress in
  config :: match getAssetTransfers src config with
            | (Throw e, src') => []
            | (Ok response, src') =>
                loopQueries getAssetTransfers fuel src' config response
            end.

(** * Properties *)

(** ** The metadata matcher *)

Section Matcher.

Variable StringToNumber : string → float.

Lemma topLevelAttrs_empty a : topLevelAttrs {| fields := ∅; attributes := a |} = [].
Proof. unfold topLevelAttrs. simpl. by rewrite map_to_list_empty. Qed.

Lemma compareTopLevel_present m entries :
  compareTopLevel (Some m) entries =
  Ok (forallb (λ kv, negb (strict_neq (get m (toLowerCase kv.1)) kv.2)) entries).
Proof.
  induction entries as [|[k v] rest IH]; simpl; [done|].
  by destruct (strict_neq _ _).
Qed.

Lemma compareTopLevel_absent entries :
  compareTopLevel None entries =
  match entries with [] => Ok true | _ :: _ => Throw TypeError end.
Proof. by destruct entries as [|[k v] rest]. Qed.

Lemma buildNested_named owned : ∀ acc nested,
  buildNested owned acc = Ok nested → Forall named owned.
Proof.
  induction owned as [|a rest IH]; intros acc nested H; [constructor|].
  simpl in H. destruct (trait_type a) as [| |b|x|s] eqn:E; try discriminate.
  constructor; [by exists s | exact (IH _ _ H)].
Qed.

Lemma buildNested_total owned : ∀ acc,
  Forall named owned → ∃ nested, buildNested owned acc = Ok nested.
Proof.
  induction owned as [|a rest IH]; intros acc H; [by eexists|].
  inversion H as [|? ? [s Hs] Hrest]; subst. simpl. rewrite Hs. simpl.
  by apply IH.
Qed.

Lemma inherited_proto key : inherited key = false → key ≠ "__proto__".
Proof. by intros H ->. Qed.

Lemma assign_own nestedAttrs name v key :
  key ≠ "__proto__" →
  own (assign nestedAttrs name v) !! key
  = if String.eqb name key then Some v else own nestedAttrs !! key.
Proof.
  intros Hkey. unfold assign.
  assert (String.eqb "__proto__" key = false) as Hk
    by (apply String.eqb_neq; congruence).
  destruct (String.eqb_spec name "__proto__") as [->|Hname].
  - rewrite Hk. destruct (plain nestedAttrs); cbn [andb own].
    + by destruct v.
    + by rewrite lookup_insert_ne.
  - cbn [andb own]. destruct (String.eqb_spec name key) as [->|Hne];
      [by rewrite lookup_insert_eq | by rewrite lookup_insert_ne].
Qed.

Lemma read_ordinary nestedAttrs key :
  inherited key = false →
  read nestedAttrs key = default SUndefined (own nestedAttrs !! key).
Proof.
  intros H. unfold read. destruct (own nestedAttrs !! key); [done|].
  by rewrite H, andb_false_r.
Qed.

Lemma buildNested_lookup owned : ∀ acc nested key,
  buildNested owned acc = Ok nested → key ≠ "__proto__" →
  own nested !! key = match lastTrait owned key with
                      | Some v => Some v
                      | None => own acc !! key
                      end.
Proof.
  induction owned as [|a rest IH]; intros acc nested key H Hkey; simpl in *.
  - by injection H as <-.
  - destruct (trait_type a) as [| |b|x|s]; try discriminate. simpl in H.
    rewrite (IH _ _ key H Hkey). destruct (lastTrait rest key); [done|].
    rewrite assign_own by done. by destruct (String.eqb (toLowerCase s) key).
Qed.

Lemma compareNested_true nested wanted :
  compareNested StringToNumber nested wanted = Ok true ↔
  Forall (passes StringToNumber nested) wanted.
Proof.
  unfold passes.
  induction wanted as [|a rest IH]; simpl; [by split; [constructor|]|].
  split.
  - intros H. destruct (trait_type a) as [| |b|x|s] eqn:E; try discriminate.
    simpl in H.
    destruct (loose_eq _ _ _) eqn:L; simpl in H; [|discriminate].
    constructor; [by exists s | by apply IH].
  - intros H. inversion H as [|? ? (s & Hs & L) Hrest]; subst.
    rewrite Hs. simpl. rewrite L. simpl. by apply IH.
Qed.

(** The matcher on a present record, by the stages of its code. *)
Lemma matches_present m f :
  filterNFTMetadata StringToNumber (Some m) (Some f) =
  if forallb (λ kv, negb (strict_neq (get m (toLowerCase kv.1)) kv.2))
             (topLevelAttrs f)
  then
    if attributesGuard (Some m) f then
      match attributes m, attributes f with
      | Some owned, Some wanted =>
          nestedAttrs ← buildNested owned emptyObject;
          compareNested StringToNumber nestedAttrs wanted
      | _, _ => Ok true
      end
    else Ok false
  else Ok false.
Proof.
  unfold filterNFTMetadata. rewrite compareTopLevel_present. simpl.
  destruct (forallb _ _); simpl; [|done].
  by destruct (attributesGuard _ _).
Qed.


Lemma buildNested_fresh owned nested key :
  buildNested owned emptyObject = Ok nested → inherited key = false →
  read nested key = default SUndefined (lastTrait owned key).
Proof.
  intros H Hkey. rewrite read_ordinary by done.
  rewrite (buildNested_lookup _ _ _ key H) by by apply inherited_proto.
  by destruct (lastTrait owned key).
Qed.

(** What the matcher asks of every top-level field of the filter. *)
Lemma matches_top_level m f k v :
  filterNFTMetadata StringToNumber (Some m) (Some f) = Ok true →
  fields f !! k = Some v → k ≠ "attributes" →
  strict_neq (get m (toLowerCase k)) v = false.
Proof.
  rewrite matches_present. intros H Hk Hne.
  destruct (forallb _ _) eqn:E; [|discriminate].
  rewrite forallb_forall in E.
  specialize (E (k, v)). simpl in E. apply negb_true_iff, E.
  apply list_elem_of_In, list_elem_of_filter. split; [done|].
  by apply elem_of_map_to_list.
Qed.

(** A filter of one top-level field against a record that is present. *)
Lemma matches_single_field m k v :
  k ≠ "attributes" →
  filterNFTMetadata StringToNumber (Some m)
    (Some {| fields := {[k := v]}; attributes := None |}) =
  Ok (negb (strict_neq (get m (toLowerCase k)) v)).
Proof.
  intros Hne. rewrite matches_present. unfold topLevelAttrs. simpl.
  rewrite map_to_list_singleton, filter_cons_True by done.
  rewrite filter_nil. simpl. rewrite andb_true_r.
  destruct (strict_neq _ _); simpl; [done|]. by destruct (attributes m).
Qed.

(** C1, amended.  With an absent filter the matcher returns [true] for
    every record, absent or present; with an empty filter (no top-level
    field, no attributes list) it returns [true] for every record that is
    present, and [false] for an absent record. *)
Theorem absent_or_empty_filter :
  (∀ r, filterNFTMetadata StringToNumber r None = Ok true) ∧
  (∀ m, filterNFTMetadata StringToNumber (Some m) (Some emptyFilter) = Ok true) ∧
  filterNFTMetadata StringToNumber None (Some emptyFilter) = Ok false.
Proof.
  split; [done|]. split; [|by vm_compute].
  intros m. rewrite matches_present. unfold emptyFilter.
  rewrite topLevelAttrs_empty. simpl. by destruct (attributes m).
Qed.

(** X21.  When the attributes list of the filter is strictly longer than
    that of the record (an absent record and an absent list counting as
    empty), the matcher returns [false], whatever the attributes of
    either side hold and before any of them is read, for a record that
    is present, and for an absent record when the filter has no
    top-level field. *)
Theorem longer_filter_rejected r f wanted :
  attributes f = Some wanted →
  (length (ownedAttributes r) < length wanted)%nat →
  (r = None → topLevelAttrs f = []) →
  filterNFTMetadata StringToNumber r (Some f) = Ok false.
Proof.
  intros Hf Hlen Habsent. destruct r as [m|].
  - rewrite matches_present. destruct (forallb _ _); [|done].
    unfold attributesGuard. rewrite Hf.
    destruct (Nat.ltb_spec 0 (length wanted)) as [_|Hz]; [|lia].
    simpl in Hlen. destruct (attributes m) as [owned|]; simpl in *; [|done].
    by destruct (Nat.ltb_spec (length owned) (length wanted)) as [_|Hge]; [|lia].
  - unfold filterNFTMetadata. rewrite (Habsent eq_refl). simpl.
    unfold attributesGuard. rewrite Hf.
    by destruct (Nat.ltb_spec 0 (length wanted)) as [_|Hz]; [|simpl in Hlen; lia].
Qed.

(** The matcher when both attributes lists are present. *)
Lemma matches_nested m f owned wanted :
  attributes m = Some owned → attributes f = Some wanted →
  (filterNFTMetadata StringToNumber (Some m) (Some f) = Ok true ↔
     compareTopLevel (Some m) (topLevelAttrs f) = Ok true ∧
     (length wanted ≤ length owned)%nat ∧
     ∃ nested, buildNested owned emptyObject = Ok nested ∧
               Forall (passes StringToNumber nested) wanted).
Proof.
  intros Hm Hf. rewrite matches_present, compareTopLevel_present.
  destruct (forallb _ _); [|by split; [|intros [? _]]].
  unfold attributesGuard. rewrite Hm, Hf.
  assert (Hguard : (if (0 <? length wanted)%nat
                    then negb (length owned <? length wanted)%nat
                    else true) = true ↔ (length wanted ≤ length owned)%nat).
  { destruct (Nat.ltb_spec 0 (length wanted));
      [destruct (Nat.ltb_spec (length owned) (length wanted))|];
      simpl; split; (done || lia). }
  destruct (if (0 <? length wanted)%nat then _ else true).
  2:{ split; [done|]. intros (_ & Hlen & _). by apply Hguard in Hlen. }
  destruct (buildNested owned emptyObject) as [nested|e] eqn:B; simpl.
  - rewrite compareNested_true. split.
    + intros H. split; [done|]. split; [by apply Hguard|]. by exists nested.
    + by intros (_ & _ & nested' & [= <-] & H).
  - split; [done|]. by intros (_ & _ & nested' & ? & _).
Qed.

Lemma matches_attributes m f owned wanted :
  attributes m = Some owned → attributes f = Some wanted →
  Forall ordinary wanted →
  (filterNFTMetadata StringToNumber (Some m) (Some f) = Ok true ↔
     compareTopLevel (Some m) (topLevelAttrs f) = Ok true ∧
     (length wanted ≤ length owned)%nat ∧
     Forall named owned ∧
     Forall (agrees StringToNumber owned) wanted).
Proof.
  intros Hm Hf Hord. rewrite (matches_nested m f owned wanted Hm Hf).
  rewrite Forall_forall in Hord. split.
  - intros (Htop & Hlen & nested & B & H). split; [done|]. split; [done|].
    split; [by eapply buildNested_named|].
    rewrite Forall_forall in H |- *. intros a Ha.
    destruct (H a Ha) as (s & Hs & L). exists s. split; [done|].
    by rewrite <- (buildNested_fresh _ _ _ B (Hord a Ha s Hs)).
  - intros (Htop & Hlen & Hnamed & H). split; [done|]. split; [done|].
    destruct (buildNested_total owned emptyObject Hnamed) as [nested B].
    exists nested. split; [done|].
    rewrite Forall_forall in H |- *. intros a Ha.
    destruct (H a Ha) as (s & Hs & L). exists s. split; [done|].
    by rewrite (buildNested_fresh _ _ _ B (Hord a Ha s Hs)).
Qed.

Lemma colorRed_ordinary : Forall ordinary [trait "Color" "Red"].
Proof. constructor; [|constructor]. by intros s [= <-]. Qed.

(** C4, amended.  With both attributes lists present the matcher stores
    the values of the record under its trait names in lower case, a later
    attribute replacing an earlier one of the same name.  For a filter
    none of whose pairs is named [constructor] or [__proto__], case
    apart, it returns [true] exactly when the top-level fields pass, the
    filter has no more attributes than the record, every trait name of
    the record is a string, and for every pair of the filter the value
    stored under its name ([undefined] when none is) is loosely equal to
    the value of the pair.  For the filter
    [{attributes: [{trait_type: "Color", value: "Red"}]}] the result is
    [true] exactly when the record has an attributes list of string trait
    names whose last attribute named "color", case apart, has a value
    loosely equal to "Red"; it is [false] when the record or its
    attributes list is absent. *)
Theorem attributes_compared_through_mapping :
  (∀ m f owned wanted,
     attributes m = Some owned → attributes f = Some wanted →
     Forall ordinary wanted →
     (filterNFTMetadata StringToNumber (Some m) (Some f) = Ok true ↔
        compareTopLevel (Some m) (topLevelAttrs f) = Ok true ∧
        (length wanted ≤ length owned)%nat ∧
        Forall named owned ∧
        Forall (agrees StringToNumber owned) wanted)) ∧
  (∀ r, filterNFTMetadata StringToNumber r (Some colorRed) = Ok true ↔
        ∃ m owned v, r = Some m ∧ attributes m = Some owned ∧
          Forall named owned ∧ lastTrait owned "color" = Some v ∧
          loose_eq StringToNumber v (SStr "Red") = true) ∧
  (∀ r, r ≫= attributes = None →
        filterNFTMetadata StringToNumber r (Some colorRed) = Ok false).
Proof.
  split; [exact matches_attributes|]. split.
  - intros [m|]; [|by split; [|intros (? & ? & ? & ? & _)]].
    destruct (attributes m) as [owned|] eqn:Hm.
    + rewrite (matches_attributes m colorRed owned [trait "Color" "Red"] Hm eq_refl
                 colorRed_ordinary).
      unfold colorRed at 1. rewrite topLevelAttrs_empty. simpl. split.
      * intros (_ & _ & Hnamed & Hagree).
        inversion Hagree as [|? ? (s & Hs & L) _]; subst.
        injection Hs as <-. change (toLowerCase "Color") with "color" in L.
        destruct (lastTrait owned "color") as [v|] eqn:Hv; [|done].
        by exists m, owned, v.
      * intros (m' & owned' & v & [= <-] & Hm' & Hnamed & Hv & L).
        rewrite Hm in Hm'. injection Hm' as <-.
        split; [done|]. split.
        { destruct owned; [done | simpl; lia]. }
        split; [done|]. constructor; [|constructor].
        exists "Color". split; [done|].
        change (toLowerCase "Color") with "color". by rewrite Hv.
    + rewrite matches_present. unfold colorRed at 1.
      rewrite topLevelAttrs_empty. simpl.
      unfold attributesGuard. rewrite Hm. simpl. split; [done|].
      intros (m' & owned' & v & [= <-] & Hm' & _). congruence.
  - intros [m|] Hr; [|by vm_compute]. simpl in Hr.
    rewrite matches_present. unfold colorRed at 1.
    rewrite topLevelAttrs_empty. simpl.
    unfold attributesGuard. by rewrite Hr.
Qed.

End Matcher.

(** C1, the record absent and the filter empty: the matcher returns
    [false], not [true]. *)
Lemma empty_filter_absent_record :
  filterNFTMetadata decimalToNumber None (Some emptyFilter) = Ok false.
Proof. by vm_compute. Qed.

(** C2, at the record [{Name: "x"}]: it has a field whose name is that of
    the filters [{Name: "x"}] and [{name: "x"}], case apart, with an
    identical value, and the matcher returns [false] for both; with the
    record [{name: "x"}] and the filter [{Name: "x"}] it returns [true]. *)
Theorem capital_key_never_matches :
  fields capitalName !! "Name" = Some (SStr "x") ∧
  same_name "Name" "name" ∧
  strict_eq (SStr "x") (SStr "x") = true ∧
  filterNFTMetadata decimalToNumber (Some capitalName) (Some capitalName) = Ok false ∧
  filterNFTMetadata decimalToNumber (Some capitalName) (Some lowerName) = Ok false ∧
  filterNFTMetadata decimalToNumber (Some lowerName) (Some capitalName) = Ok true.
Proof. by vm_compute. Qed.

(** C3, the record absent and the filter
    [{name: "x", attributes: [{trait_type: "Color", value: "Red"}]}]: the
    attributes list of the filter is the longer, and the matcher raises a
    [TypeError] where the claim has it return [false]. *)
Lemma longer_filter_absent_record_raises :
  attributes namedColorRed = Some [trait "Color" "Red"] ∧
  (length (ownedAttributes None) < length [trait "Color" "Red"])%nat ∧
  filterNFTMetadata decimalToNumber None (Some namedColorRed) = Throw TypeError.
Proof. split; [done|]. split; [simpl; lia | by vm_compute]. Qed.

(** X21 on a record of two attributes, one of them with no trait name, and
    a filter of three. *)
Lemma longer_filter_rejected_witness :
  filterNFTMetadata decimalToNumber (Some twoTraits) (Some threeTraits) = Ok false.
Proof.
  apply (longer_filter_rejected decimalToNumber (Some twoTraits) threeTraits
           [trait "Color" "Red";
            {| trait_type := SUndefined; value := SStr "Happy" |};
            trait "Size" "L"]).
  - reflexivity.
  - simpl. lia.
  - discriminate.
Defined.

(** C4, at a record with the attributes [Color: Red] and [color: Blue]: it
    has a trait named "color", case apart, with the value "Red", and the
    matcher returns [false], the later attribute having replaced the
    earlier one.  And at a filter pair with the value [null] and a name the
    record has not, the matcher returns [true]. *)
Lemma last_attribute_wins :
  has_trait decimalToNumber [trait "Color" "Red"; trait "color" "Blue"]
    "color" (SStr "Red") ∧
  filterNFTMetadata decimalToNumber (Some twoColors) (Some colorRed) = Ok false ∧
  lastTrait [trait "Color" "Red"] (toLowerCase "Size") = None ∧
  filterNFTMetadata decimalToNumber
    (Some {| fields := ∅; attributes := Some [trait "Color" "Red"] |})
    (Some {| fields := ∅;
             attributes := Some [{| trait_type := SStr "Size"; value := SNull |}] |})
  = Ok true.
Proof.
  split; [|by vm_compute].
  exists (trait "Color" "Red"), "Color". split; [apply list_elem_of_here|].
  by vm_compute.
Qed.

(** C4 on a record with the attributes [COLOR: Red] and [Size: L]. *)
Lemma attributes_compared_through_mapping_witness :
  filterNFTMetadata decimalToNumber
    (Some {| fields := ∅; attributes := Some [trait "COLOR" "Red"; trait "Size" "L"] |})
    (Some colorRed) = Ok true.
Proof.
  apply (proj1 (proj2 (attributes_compared_through_mapping decimalToNumber))).
  exists {| fields := ∅; attributes := Some [trait "COLOR" "Red"; trait "Size" "L"] |},
         [trait "COLOR" "Red"; trait "Size" "L"], (SStr "Red").
  split; [reflexivity|]. split; [reflexivity|].
  split; [repeat constructor; eexists; reflexivity|].
  split; reflexivity.
Defined.

(** A filter pair named [constructor] with the value [null], against a
    record with no such trait: the object the attributes are stored in
    reads the function [Object] under that name, not [undefined], and the
    matcher returns [false]. *)
Lemma inherited_name_is_not_undefined :
  lastTrait [trait "Color" "Red"] "constructor" = None ∧
  filterNFTMetadata decimalToNumber
    (Some {| fields := ∅; attributes := Some [trait "Color" "Red"] |})
    (Some constructorNull) = Ok false ∧
  filterNFTMetadata decimalToNumber
    (Some {| fields := ∅; attributes := Some [trait "__proto__" "x"] |})
    (Some {| fields := ∅; attributes := Some [trait "__proto__" "x"] |}) = Ok false.
Proof. by vm_compute. Qed.

(** ** The paging loop *)

Section Paging.

Variable Source : Type.
Variable getAssetTransfers :
  Source → AssetTransfersParams → result AssetTransfersResponse * Source.

Arguments cursor : simpl never.
Arguments withPageKey : simpl never.
Arguments transactionConfig : simpl never.

Lemma followUps_length config src query pages src' :
  Pages Source getAssetTransfers config src query pages src' →
  S (length (followUps config pages)) = length pages.
Proof.
  unfold followUps. induction 1 as [? ? ? ? _ Hc|? ? ? ? ? ? ? _ Hc _ IH]; simpl;
    rewrite Hc; simpl; [done | by f_equal].
Qed.

(** A call and the rounds of the loop that follow it. *)
Lemma fetch_then_loop config src query pages src' :
  Pages Source getAssetTransfers config src query pages src' →
  ∀ fuel acc issued,
    (length pages ≤ S fuel)%nat →
    match getAssetTransfers src query with
    | (Ok response, src1) =>
        fetchRemaining Source getAssetTransfers fuel src1 config response
          (acc ++ transfers response) (issued ++ [query])
    | (Throw e, src1) =>
        Some {| outcome := Throw e; calls := issued ++ [query];
                source_after := src1 |}
    end
    = Some {| outcome := Ok (acc ++ concat (map transfers pages));
              calls := issued ++ query :: followUps config pages;
              source_after := src' |}.
Proof.
  induction 1 as [src query page src' Hget Hc
                 |src query page key src1 pages src' Hget Hc Hrest IH];
    intros fuel acc issued Hfuel; rewrite Hget.
  - destruct fuel; unfold followUps; simpl; rewrite !Hc; simpl;
      by rewrite app_nil_r.
  - destruct fuel as [|fuel].
    { destruct pages; [inversion Hrest | simpl in Hfuel; lia]. }
    specialize (IH fuel (acc ++ transfers page) (issued ++ [query])).
    unfold followUps in *. simpl. rewrite !Hc. simpl.
    rewrite IH by (simpl in Hfuel; lia).
    by rewrite <- !app_assoc.
Qed.

Lemma drainTransfers_pages fuel src walletAddress pages src' :
  Pages Source getAssetTransfers (transactionConfig walletAddress)
    src (transactionConfig walletAddress) pages src' →
  (length pages ≤ S fuel)%nat →
  drainTransfers Source getAssetTransfers fuel src walletAddress
  = Some {| outcome := Ok (concat (map transfers pages));
            calls := transactionConfig walletAddress
                     :: followUps (transactionConfig walletAddress) pages;
            source_after := src' |}.
Proof.
  intros Hpages Hfuel.
  pose proof (fetch_then_loop _ _ _ _ _ Hpages fuel [] [] Hfuel) as H.
  unfold drainTransfers.
  destruct (getAssetTransfers src (transactionConfig walletAddress))
    as [[response|e] src1]; exact H.
Qed.

(** C5.  When the source answers the initial query, and then the query
    with the cursor of each answer that carries one, with the pages
    [pages], the last of which carries no cursor, the drain procedure
    comes to its end (given a round of the loop for every page after the
    first), returns the items of the pages concatenated in page order,
    and has called the source once per page: first with the initial
    query, then with the query carrying the cursor of the previous
    answer. *)
Theorem drain_collects_pages fuel src walletAddress pages src' :
  Pages Source getAssetTransfers (transactionConfig walletAddress)
    src (transactionConfig walletAddress) pages src' →
  (length pages ≤ S fuel)%nat →
  drainTransfers Source getAssetTransfers fuel src walletAddress
  = Some {| outcome := Ok (concat (map transfers pages));
            calls := transactionConfig walletAddress
                     :: followUps (transactionConfig walletAddress) pages;
            source_after := src' |}
  ∧ length (transactionConfig walletAddress
            :: followUps (transactionConfig walletAddress) pages)
    = length pages.
Proof.
  intros Hpages Hfuel. split.
  - by apply drainTransfers_pages.
  - simpl. by erewrite followUps_length.
Qed.

End Paging.

(** C5 on a source of three pages of 2, 2 and 1 items, and on a source of
    one page. *)
Lemma drain_collects_pages_witness :
  (drainTransfers nat threePages 2 0 "0xwallet"
   = Some {| outcome := Ok [transfer "0xa1" (Some "0xb"); transfer "0xa2" None;
                            transfer "0xa3" (Some "0xb"); transfer "0xa4" None;
                            transfer "0xa5" (Some "0xb")];
             calls := [transactionConfig "0xwallet";
                       withPageKey (transactionConfig "0xwallet") "k1";
                       withPageKey (transactionConfig "0xwallet") "k2"];
             source_after := 3 |}
   ∧ length [transactionConfig "0xwallet";
             withPageKey (transactionConfig "0xwallet") "k1";
             withPageKey (transactionConfig "0xwallet") "k2"] = 3)
  ∧ (drainTransfers nat onePage 0 0 "0xwallet"
     = Some {| outcome := Ok [transfer "0xa5" (Some "0xb")];
               calls := [transactionConfig "0xwallet"];
               source_after := 1 |}
     ∧ length [transactionConfig "0xwallet"] = 1).
Proof.
  split.
  - apply (drain_collects_pages nat threePages 2 0 "0xwallet" [page1; page2; page3] 3).
    + eapply Pages_next; [reflexivity | reflexivity |].
      eapply Pages_next; [reflexivity | reflexivity |].
      apply Pages_last; reflexivity.
    + simpl. lia.
  - apply (drain_collects_pages nat onePage 0 0 "0xwallet" [page3] 1).
    + apply Pages_last; reflexivity.
    + simpl. lia.
Defined.

(** ** [Promise.all] and the deployment transactions *)

Section Settling.

Context {A : Type}.

Lemma settle_fulfilled (vs : list A) order : ∀ values,
  settle order (map Ok vs) values = Ok (stored vs order values).
Proof.
  induction order as [|i order IH]; intros values; simpl; [done|].
  rewrite list_lookup_fmap. destruct (vs !! i); simpl; apply IH.
Qed.

Lemma stored_cons (vs : list A) j order values :
  stored vs (j :: order) values =
  stored vs order (match vs !! j with
                   | Some v => <[j := Some v]> values
                   | None => values
                   end).
Proof. reflexivity. Qed.

Lemma stored_length (vs : list A) order : ∀ values,
  length (stored vs order values) = length values.
Proof.
  induction order as [|i order IH]; intros values; [done|].
  rewrite stored_cons, IH. destruct (vs !! i); [apply length_insert | done].
Qed.

Lemma stored_lookup (vs : list A) order : ∀ values i,
  length values = length vs →
  stored vs order values !! i =
  if bool_decide (i ∈ order) then (Some <$> vs) !! i else values !! i.
Proof.
  induction order as [|j order IH]; intros values i Hlen; [done|].
  rewrite stored_cons.
  rewrite IH by (destruct (vs !! j); by rewrite ?length_insert).
  destruct (bool_decide (i ∈ order)) eqn:Hin.
  - apply bool_decide_eq_true in Hin.
    rewrite bool_decide_eq_true_2; [done | by right].
  - apply bool_decide_eq_false in Hin.
    destruct (decide (i = j)) as [->|Hne].
    + rewrite bool_decide_eq_true_2 by left.
      rewrite list_lookup_fmap.
      destruct (vs !! j) as [v|] eqn:Hj; simpl.
      * apply list_lookup_insert_eq. rewrite Hlen. by eapply lookup_lt_Some.
      * apply lookup_ge_None. rewrite Hlen. by apply lookup_ge_None.
    + rewrite bool_decide_eq_false_2 by (intros [?|?]%elem_of_cons; done).
      destruct (vs !! j); [by apply list_lookup_insert_ne | done].
Qed.

(** Whatever the order in which they are fulfilled, the values come out in
    the order of the promises. *)
Lemma PromiseAll_fulfilled (vs : list A) order :
  order ≡ₚ seq 0 (length vs) →
  PromiseAll order (map Ok vs) = Some (Ok vs).
Proof.
  intros Hperm. unfold PromiseAll. rewrite settle_fulfilled.
  assert (stored vs order (replicate (length (map Ok vs)) None) = Some <$> vs) as ->.
  { apply list_eq. intros i.
    rewrite stored_lookup by by rewrite length_replicate, length_map.
    destruct (vs !! i) as [v|] eqn:Hi.
    - rewrite bool_decide_eq_true_2; [done|]. rewrite Hperm.
      apply elem_of_seq. apply lookup_lt_Some in Hi. lia.
    - rewrite bool_decide_eq_false_2.
      + rewrite list_lookup_fmap, Hi. simpl.
        apply lookup_ge_None. rewrite length_replicate, length_map.
        by apply lookup_ge_None.
      + rewrite Hperm, elem_of_seq. apply lookup_ge_None in Hi. lia. }
  by rewrite mapM_fmap_Some.
Qed.

End Settling.

Section Deployments.

Variable getTransactionReceipt : string → result (option TransactionReceipt).

Lemma receipts_fetched (found : list Transfer) receipts :
  Forall2 (λ transfer receipt,
             getTransactionReceipt (tr_hash transfer) = Ok receipt)
          found receipts →
  map getTransactionReceipt (map tr_hash found) = map Ok receipts.
Proof.
  induction 1 as [|transfer receipt ? ? Hget _ IH]; simpl; [done|].
  by rewrite Hget, IH.
Qed.

Lemma deploymentTransactions_fulfilled order walletAddress drained receipts :
  order ≡ₚ seq 0 (length receipts) →
  Forall2 (λ transfer receipt,
             getTransactionReceipt (tr_hash transfer) = Ok receipt)
          (deployments drained) receipts →
  deploymentTransactions getTransactionReceipt order walletAddress drained
  = Some (Ok (map (deploymentOf walletAddress) receipts)).
Proof.
  intros Hperm Hall. unfold deploymentTransactions.
  rewrite (receipts_fetched _ _ Hall).
  by rewrite PromiseAll_fulfilled.
Qed.

(** C6.  When every receipt fetch is fulfilled, in whatever order, the
    flow returns one entry per drained transfer whose [to] is [null], in
    the order of those transfers; each entry has [from] the wallet
    address, [to] [null], [value] 0 and the hash of the receipt fetched
    for the hash of its transfer ([undefined] when there is no
    receipt). *)
Theorem deployments_by_position order walletAddress drained receipts :
  order ≡ₚ seq 0 (length receipts) →
  Forall2 (λ transfer receipt,
             getTransactionReceipt (tr_hash transfer) = Ok receipt)
          (filter (λ transfer, tr_to transfer = None) drained) receipts →
  deploymentTransactions getTransactionReceipt order walletAddress drained
  = Some (Ok (map (λ receipt,
                     {| txn_from := walletAddress; txn_to := None;
                        txn_hash := transactionHash <$> receipt;
                        txn_value := 0 |}) receipts)).
Proof. exact (deploymentTransactions_fulfilled order walletAddress drained receipts). Qed.

(** X12.  The whole flow: when the source answers with finitely many
    pages and every receipt fetch is fulfilled, the pages are drained, the
    receipts of the deployments among their transfers are fetched, and
    the flow returns one entry per deployment, in the order of the
    transfers across the pages. *)
Lemma contractDeploymentTransactions_pages (Source : Type)
    (getAssetTransfers :
       Source → AssetTransfersParams → result AssetTransfersResponse * Source)
    fuel order src walletAddress pages src' receipts :
  Pages Source getAssetTransfers (transactionConfig walletAddress)
    src (transactionConfig walletAddress) pages src' →
  (length pages ≤ S fuel)%nat →
  order ≡ₚ seq 0 (length receipts) →
  Forall2 (λ transfer receipt,
             getTransactionReceipt (tr_hash transfer) = Ok receipt)
          (deployments (concat (map transfers pages))) receipts →
  contractDeploymentTransactions Source getAssetTransfers getTransactionReceipt
    fuel order src walletAddress
  = Some (Ok (map (deploymentOf walletAddress) receipts)).
Proof.
  intros Hpages Hfuel Hperm Hall. unfold contractDeploymentTransactions.
  rewrite (drainTransfers_pages _ _ _ _ _ _ _ Hpages Hfuel). simpl.
  by apply deploymentTransactions_fulfilled.
Qed.

End Deployments.

(** C6 on four transfers of which the second and the fourth are
    deployments, the receipt of the fourth settling first and being
    absent. *)
Lemma deployments_by_position_witness :
  deploymentTransactions receiptOf [1; 0] "0xwallet"
    [transfer "0xa1" (Some "0xb"); transfer "0xa2" None;
     transfer "0xa3" (Some "0xb"); transfer "0xa4" None]
  = Some (Ok [ {| txn_from := "0xwallet"; txn_to := None;
                  txn_hash := Some "0xa2"; txn_value := 0 |};
               {| txn_from := "0xwallet"; txn_to := None;
                  txn_hash := None; txn_value := 0 |} ]).
Proof.
  apply (deployments_by_position receiptOf [1; 0] "0xwallet"
           [transfer "0xa1" (Some "0xb"); transfer "0xa2" None;
            transfer "0xa3" (Some "0xb"); transfer "0xa4" None]
           [Some {| transactionHash := "0xa2" |}; None]).
  - simpl. apply perm_swap.
  - vm_compute. repeat constructor.
Defined.

(** ** The token balance and the NFT inventory *)

Section Inventory.

Variable StringToNumber : string → float.
Variable NumberToString : float → string.
Variable StringToBigInt : string → option Z.
Variable getTokenMetadata : string → result TokenMetadataResponse.
Variable getTokenBalances : string → list string → result (list TokenBalance).
Variable getNftsForOwner : string → list string → result (list OwnedNft).

(** The native balance is paired with 18 decimals. *)
Lemma nativeToken_decimals (getBalance : string → string → result Z)
    wallet amount :
  nativeToken getBalance (Some wallet) = Ok amount →
  decimals amount = 18%float.
Proof.
  unfold nativeToken. destruct (getBalance wallet "latest"); simpl; [|done].
  by intros [= <-].
Qed.

(** The loop of [erc20] stops at the first entry that is [held], if the
    decimals are truthy, and at none otherwise. *)
Lemma scanTokenBalances_find contract metadata tokenBalances :
  scanTokenBalances StringToBigInt contract metadata tokenBalances =
  match md_decimals metadata, List.find (held contract) tokenBalances with
  | Some d, Some tb =>
      if truthy_number d then
        b ← BigInt StringToBigInt (default "" (tokenBalance tb));
        Ok {| balance := b; decimals := d |}
      else Ok zeroAmount
  | _, _ => Ok zeroAmount
  end.
Proof.
  induction tokenBalances as [|tb rest IH]; simpl.
  - by destruct (md_decimals metadata).
  - rewrite IH. clear IH.
    destruct (md_decimals metadata) as [d|]; [|by destruct (tokenBalance tb)].
    assert (held contract tb
            = String.eqb (contractAddress tb) contract
              && match tokenBalance tb with
                 | Some raw => truthy_string raw
                 | None => false
                 end) as -> by reflexivity.
    destruct (tokenBalance tb) as [raw|] eqn:Hraw;
      [|by rewrite andb_false_r].
    destruct (String.eqb _ _), (truthy_string raw); simpl; try done.
    rewrite Hraw. simpl.
    destruct (truthy_number d) eqn:Hd; [done|].
    destruct (List.find _ _); by rewrite ?Hd.
Qed.

(** C7, amended.  When the two calls to the service are answered, the
    flow returns the amount [{0, 0}], raising nothing, whenever no entry
    of the balance list has the address of the contract together with a
    non-empty balance string, or the decimals are unknown ([null]);
    otherwise, when the decimals are a number other than zero, it returns
    the balance of the first such entry, converted by [BigInt], paired
    with the decimals. *)
Theorem erc20_amount wallet contract metadata tokenBalances :
  getTokenMetadata contract = Ok metadata →
  getTokenBalances wallet [contract] = Ok tokenBalances →
  ((List.find (held contract) tokenBalances = None ∨ md_decimals metadata = None) →
     erc20 StringToBigInt getTokenMetadata getTokenBalances (Some wallet) contract
     = Ok {| balance := 0; decimals := 0 |})
  ∧ (∀ tb raw d,
       List.find (held contract) tokenBalances = Some tb →
       tokenBalance tb = Some raw →
       md_decimals metadata = Some d →
       truthy_number d = true →
       erc20 StringToBigInt getTokenMetadata getTokenBalances (Some wallet) contract =
       (b ← BigInt StringToBigInt raw; Ok {| balance := b; decimals := d |})).
Proof.
  intros Hmd Hbal. unfold erc20. rewrite Hmd. simpl. rewrite Hbal. simpl.
  rewrite scanTokenBalances_find. split.
  - intros [-> | ->]; by destruct (md_decimals metadata).
  - intros tb raw d -> Hraw -> ->. by rewrite Hraw.
Qed.

(** C8.  For an owned NFT that matches the filter and whose balance
    converts to [NaN], a round of the loop leaves the aggregate balance
    as it was and still appends the tagged metadata of the NFT, if it
    has metadata, to [nftData]. *)
Theorem nan_balance_skips_increment nftMetadata output owned :
  nftMatches StringToNumber NumberToString nftMetadata owned = Ok true →
  PrimFloat.is_nan (StringToNumber (nft_balance owned)) = true →
  inspect StringToNumber NumberToString nftMetadata output owned =
  Ok {| out_balance := out_balance output;
        nftData := nftData output
                   ++ match raw_metadata owned with
                      | Some m => [tagged StringToNumber m owned]
                      | None => []
                      end |}.
Proof.
  intros Hmatch Hnan. unfold inspect. rewrite Hmatch. simpl.
  unfold addToOutput. rewrite Hnan.
  destruct (raw_metadata owned); by rewrite ?app_nil_r.
Qed.

(** X19.  When the filter has a truthy token id, an NFT that matches has
    that token id, written as a string. *)
Lemma matched_token_id f owned wanted :
  fields f !! "tokenId" = Some wanted → truthy wanted = true →
  nftMatches StringToNumber NumberToString (Some f) owned = Ok true →
  ∃ s, toStringOf NumberToString wanted = Ok s ∧ tokenId owned = s.
Proof.
  intros Hw Ht. unfold nftMatches. rewrite Hw. simpl. rewrite Ht.
  destruct (match raw_metadata owned with Some _ => _ | None => _ end)
    as [[|]|e]; simpl; try discriminate.
  destruct (toStringOf NumberToString wanted) as [s|e]; simpl; [|discriminate].
  intros [= Heq]. exists s. split; [done|]. by apply String.eqb_eq.
Qed.

(** X18.  A filter with a truthy token id passes its token id to the
    metadata matcher as a top-level field: an NFT whose metadata has no
    property [tokenid] is never a match, whatever its token id. *)
Lemma token_id_filter_rejects_metadata f owned m wanted :
  fields f !! "tokenId" = Some wanted → truthy wanted = true →
  raw_metadata owned = Some m → fields m !! "tokenid" = None →
  nftMatches StringToNumber NumberToString (Some f) owned = Ok false.
Proof.
  intros Hw Ht Hm Hnone.
  assert (filterNFTMetadata StringToNumber (Some m) (Some f) = Ok false) as E.
  { rewrite matches_present. destruct (forallb _ _) eqn:E; [|done].
    rewrite forallb_forall in E.
    assert (In ("tokenId", wanted) (topLevelAttrs f)) as Hin.
    { apply list_elem_of_In, list_elem_of_filter. split; [done|].
      by apply elem_of_map_to_list. }
    apply E in Hin. unfold get in Hin.
    change (toLowerCase ("tokenId", wanted).1) with "tokenid" in Hin.
    simpl in Hin. rewrite Hnone in Hin.
    destruct wanted; simpl in *; discriminate. }
  unfold nftMatches. rewrite Hm, Hw, E. simpl. by rewrite Ht.
Qed.

(** C10.  For an owned NFT with no raw metadata the metadata matcher is
    not consulted: whether it counts is decided by the token-id test
    alone.  When it counts, a round of the loop adds its balance, if a
    number, to the aggregate balance and appends nothing to [nftData]; so
    an inventory of one such NFT of balance 1 returns the balance 1 with
    an empty [nftData], a balance above the number of entries.  With an
    absent filter the matcher is not consulted either, whatever the NFT;
    the read of the token id of the filter then raises. *)
Theorem bare_nft_counts :
  (∀ owned, nftMatches StringToNumber NumberToString None owned = Throw TypeError) ∧
  (∀ f owned,
     raw_metadata owned = None →
     nftMatches StringToNumber NumberToString (Some f) owned =
     if truthy (default SUndefined (fields f !! "tokenId")) then
       s ← toStringOf NumberToString (default SUndefined (fields f !! "tokenId"));
       Ok (String.eqb (tokenId owned) s)
     else Ok true) ∧
  (∀ f owned output,
     raw_metadata owned = None →
     nftMatches StringToNumber NumberToString (Some f) owned = Ok true →
     inspect StringToNumber NumberToString (Some f) output owned =
     Ok {| out_balance :=
             if PrimFloat.is_nan (StringToNumber (nft_balance owned))
             then out_balance output
             else PrimFloat.add (out_balance output)
                    (StringToNumber (nft_balance owned));
           nftData := nftData output |}) ∧
  (∀ wallet contract f owned,
     getNftsForOwner wallet [contract] = Ok [owned] →
     raw_metadata owned = None →
     truthy (default SUndefined (fields f !! "tokenId")) = false →
     StringToNumber (nft_balance owned) = 1%float →
     ∃ output,
       nft StringToNumber NumberToString getNftsForOwner (Some wallet) contract
         (Some f) = Ok output ∧
       nftData output = [] ∧
       PrimFloat.ltb (number_of_nat (length (nftData output)))
                     (out_balance output) = true).
Proof.
  assert (Hskip : ∀ f owned, raw_metadata owned = None →
            nftMatches StringToNumber NumberToString (Some f) owned =
            if truthy (default SUndefined (fields f !! "tokenId")) then
              s ← toStringOf NumberToString
                    (default SUndefined (fields f !! "tokenId"));
              Ok (String.eqb (tokenId owned) s)
            else Ok true).
  { intros f owned Hbare. unfold nftMatches. by rewrite Hbare. }
  assert (Hadd : ∀ f owned output, raw_metadata owned = None →
            nftMatches StringToNumber NumberToString (Some f) owned = Ok true →
            inspect StringToNumber NumberToString (Some f) output owned =
            Ok {| out_balance :=
                    if PrimFloat.is_nan (StringToNumber (nft_balance owned))
                    then out_balance output
                    else PrimFloat.add (out_balance output)
                           (StringToNumber (nft_balance owned));
                  nftData := nftData output |}).
  { intros f owned output Hbare Hmatch. unfold inspect. rewrite Hmatch. simpl.
    unfold addToOutput. by rewrite Hbare. }
  split; [by intros owned|]. split; [exact Hskip|]. split; [exact Hadd|].
  intros wallet contract f owned Hget Hbare Hid Hone.
  eexists. unfold nft. rewrite Hget. simpl.
  rewrite (Hadd f owned emptyOutput Hbare)
    by (rewrite (Hskip f owned Hbare); by rewrite Hid).
  simpl. rewrite Hone. by vm_compute.
Qed.

End Inventory.

(** C7, at a balance list whose entry for the contract has a [null]
    balance, the decimals being 18: the contract is in the list and the
    decimals are known, and the flow returns [{0, 0}], not an amount with
    the decimals 18. *)
Lemma unread_balance_is_zero :
  balanceUnread "0xwallet" ["0xc"]
  = Ok [{| contractAddress := "0xc"; tokenBalance := None |}] ∧
  decimals18 "0xc" = Ok {| md_decimals := Some 18%float |} ∧
  erc20 literalToBigInt decimals18 balanceUnread (Some "0xwallet") "0xc"
  = Ok {| balance := 0; decimals := 0 |}.
Proof. by vm_compute. Qed.

(** C7 on a balance list whose second entry is that of the contract, with
    the balance [0x10]. *)
Lemma erc20_amount_witness :
  erc20 literalToBigInt decimals18 balanceSixteen (Some "0xwallet") "0xc"
  = Ok {| balance := 16; decimals := 18 |}.
Proof.
  exact (proj2 (erc20_amount literalToBigInt decimals18 balanceSixteen
                  "0xwallet" "0xc" {| md_decimals := Some 18%float |}
                  [{| contractAddress := "0xd"; tokenBalance := Some "0x5" |};
                   {| contractAddress := "0xc"; tokenBalance := Some "0x10" |}]
                  eq_refl eq_refl)
               {| contractAddress := "0xc"; tokenBalance := Some "0x10" |}
               "0x10" 18%float eq_refl eq_refl eq_refl eq_refl).
Defined.

(** C8 on an NFT with metadata and the balance "abc", under the empty
    filter. *)
Lemma nan_balance_skips_increment_witness :
  inspect decimalToNumber integerToString (Some emptyFilter) emptyOutput oddBalance
  = Ok {| out_balance := 0;
          nftData := [tagged decimalToNumber capitalName oddBalance] |}.
Proof.
  apply (nan_balance_skips_increment decimalToNumber integerToString
           (Some emptyFilter) emptyOutput oddBalance).
  - vm_compute. reflexivity.
  - vm_compute. reflexivity.
Defined.

(** C9, at the filter [{tokenId: 0}] and an owned NFT of token id "7" with
    no metadata: the filter names a token id, the token id of the NFT is
    another, and the NFT is counted. *)
Theorem token_id_zero_is_ignored :
  fields tokenZero !! "tokenId" = Some (SNum 0) ∧
  toStringOf integerToString (SNum 0) = Ok "0" ∧
  String.eqb (tokenId bare) "0" = false ∧
  nft decimalToNumber integerToString ownsBare (Some "0xwallet") "0xnft"
    (Some tokenZero)
  = Ok {| out_balance := 1; nftData := [] |}.
Proof. by vm_compute. Qed.

(** C10 on one NFT with no metadata and the balance "1", under a filter
    that asks for a name and an attribute. *)
Lemma bare_nft_counts_witness :
  ∃ output,
    nft decimalToNumber integerToString ownsBare (Some "0xwallet") "0xnft"
      (Some namedColorRed) = Ok output ∧
    nftData output = [] ∧
    PrimFloat.ltb (number_of_nat (length (nftData output))) (out_balance output)
    = true.
Proof.
  apply (proj2 (proj2 (proj2
           (bare_nft_counts decimalToNumber integerToString ownsBare)))
           "0xwallet" "0xnft" namedColorRed bare).
  - reflexivity.
  - reflexivity.
  - vm_compute. reflexivity.
  - vm_compute. reflexivity.
Defined.

(** ** More on the metadata matcher *)

Section MatcherMore.

Variable StringToNumber : string → float.

Lemma forallb_agree {A} (p q : A → bool) l :
  (∀ x, In x l → p x = q x) → forallb p l = forallb q l.
Proof.
  induction l as [|x l IH]; intros H; simpl; [done|].
  rewrite (H x) by by left. rewrite IH; [done|]. intros y Hy. apply H. by right.
Qed.

Lemma topLevel_forallb m f :
  forallb (λ kv, negb (strict_neq (get m (toLowerCase kv.1)) kv.2))
          (topLevelAttrs f) = true
  ↔ topLevelMet m f.
Proof.
  rewrite forallb_forall. unfold topLevelMet, topLevelAttrs. split.
  - intros H k v Hk Hne. apply negb_true_iff, (H (k, v)).
    apply list_elem_of_In, list_elem_of_filter. split; [done|].
    by apply elem_of_map_to_list.
  - intros H [k v] [Hne Hin%elem_of_map_to_list]%list_elem_of_In%list_elem_of_filter.
    apply negb_true_iff. by apply H.
Qed.

Lemma compareNested_total nested wanted :
  Forall named wanted →
  ∃ b, compareNested StringToNumber nested wanted = Ok b.
Proof.
  induction 1 as [|a rest [s Hs] _ [b IH]]; simpl; [by eexists|].
  rewrite Hs. simpl. destruct (loose_eq _ _ _); simpl; by eexists.
Qed.

Lemma buildNested_unnamed owned : ∀ acc,
  Exists unnamed owned → buildNested owned acc = Throw TypeError.
Proof.
  induction owned as [|a rest IH]; intros acc H; [by inversion H|].
  simpl. destruct (trait_type a) as [| |b|x|s] eqn:E; try done. simpl.
  apply IH. inversion H as [? ? Hu|]; [|done]. by destruct (Hu s).
Qed.

Lemma strict_loose a b :
  strict_eq a b = true → loose_eq StringToNumber a b = true.
Proof. by destruct a, b. Qed.

Lemma lastTrait_key owned key :
  is_Some (lastTrait owned key) → key ∈ traitKeys owned.
Proof.
  unfold traitKeys. induction owned as [|a rest IH]; simpl.
  - by intros [? ?].
  - destruct (lastTrait rest key) as [u|].
    + intros _. destruct (trait_type a); try (by apply IH).
      right. by apply IH.
    + destruct (trait_type a) as [| |b|x|s]; try by intros [? ?].
      destruct (String.eqb_spec (toLowerCase s) key) as [->|];
        [|by intros [? ?]].
      intros _. left.
Qed.

Lemma lastTrait_unique owned a s :
  NoDup (traitKeys owned) → a ∈ owned → trait_type a = SStr s →
  lastTrait owned (toLowerCase s) = Some (value a).
Proof.
  induction owned as [|b rest IH]; intros Hnd Hin Hs; [by inversion Hin|].
  simpl. apply elem_of_cons in Hin as [<-|Hin].
  - rewrite Hs. unfold traitKeys in Hnd. simpl in Hnd. rewrite Hs in Hnd.
    apply NoDup_cons in Hnd as [Hfresh _].
    destruct (lastTrait rest (toLowerCase s)) as [u|] eqn:E.
    + destruct Hfresh. apply lastTrait_key. by rewrite E.
    + by rewrite String.eqb_refl.
  - rewrite IH; [done| |done|done].
    unfold traitKeys in Hnd |- *. simpl in Hnd.
    destruct (trait_type b); try done. by apply NoDup_cons in Hnd as [_ ?].
Qed.

(** X1.  For a record that is present and a filter with no attributes
    list the matcher raises nothing, and returns [true] exactly when the
    record holds, under the lower-cased name of every top-level field of
    the filter, a value identical to that of the filter. *)
Theorem filter_without_attributes m f :
  attributes f = None →
  ∃ b, filterNFTMetadata StringToNumber (Some m) (Some f) = Ok b ∧
       (b = true ↔ topLevelMet m f).
Proof.
  intros Hf. rewrite matches_present. unfold attributesGuard. rewrite Hf.
  pose proof (topLevel_forallb m f) as Ht.
  destruct (forallb _ _).
  - exists true. split; [by destruct (attributes m)|]. split; [by apply Ht | done].
  - exists false. split; [done|]. split; [done|]. intros H. by apply Ht in H.
Qed.

(** X2.  A field of the record that is the lower-cased name of no
    top-level field of the filter has no part in the result: setting it
    leaves the result as it was. *)
Theorem unrelated_field_ignored m f key x :
  key ≠ "attributes" →
  (∀ k v, fields f !! k = Some v → k ≠ "attributes" → toLowerCase k ≠ key) →
  filterNFTMetadata StringToNumber
    (Some {| fields := <[key := x]> (fields m); attributes := attributes m |})
    (Some f)
  = filterNFTMetadata StringToNumber (Some m) (Some f).
Proof.
  intros _ Hother. rewrite !matches_present. simpl.
  assert (forallb (λ kv, negb (strict_neq
                    (get {| fields := <[key := x]> (fields m);
                            attributes := attributes m |} (toLowerCase kv.1)) kv.2))
            (topLevelAttrs f)
          = forallb (λ kv, negb (strict_neq (get m (toLowerCase kv.1)) kv.2))
              (topLevelAttrs f)) as ->.
  { apply forallb_agree. intros [k v] Hin. simpl. unfold get. simpl.
    destruct (String.eqb _ "attributes"); [done|].
    apply list_elem_of_In, list_elem_of_filter in Hin as [Hne Hin].
    apply elem_of_map_to_list in Hin.
    rewrite lookup_insert_ne; [done|].
    intros Heq. by apply (Hother k v Hin Hne). }
  done.
Qed.

(** X3.  When the trait names of the record and of the filter are all
    strings, the matcher raises nothing on a record that is present. *)
Theorem named_attributes_never_raise m f :
  Forall named (default [] (attributes m)) →
  Forall named (default [] (attributes f)) →
  ∃ b, filterNFTMetadata StringToNumber (Some m) (Some f) = Ok b.
Proof.
  intros Hm Hf. rewrite matches_present.
  destruct (forallb _ _); [|by eexists].
  destruct (attributesGuard _ _); [|by eexists].
  destruct (attributes m) as [owned|]; [|by eexists].
  destruct (attributes f) as [wanted|]; [|by eexists].
  destruct (buildNested_total owned emptyObject Hm) as [nested ->]. simpl.
  by apply compareNested_total.
Qed.

(** X4.  When the top-level fields pass and the filter has an attributes
    list no longer than that of the record, an attribute of the record
    whose trait name is no string makes the matcher raise a [TypeError],
    whether or not the filter asks for it. *)
Theorem unnamed_attribute_raises m f owned wanted :
  attributes m = Some owned → attributes f = Some wanted →
  topLevelMet m f →
  length wanted ≤ length owned →
  Exists unnamed owned →
  filterNFTMetadata StringToNumber (Some m) (Some f) = Throw TypeError.
Proof.
  intros Hm Hf Htop Hlen Hbad. rewrite matches_present.
  apply topLevel_forallb in Htop. rewrite Htop.
  unfold attributesGuard. rewrite Hm, Hf.
  assert ((if (0 <? length wanted)%nat
           then negb (length owned <? length wanted)%nat else true) = true) as ->.
  { destruct (0 <? length wanted)%nat; [|done].
    by destruct (Nat.ltb_spec (length owned) (length wanted)); [lia|]. }
  by rewrite buildNested_unnamed.
Qed.

Lemma traitKeys_elem owned a s :
  a ∈ owned → trait_type a = SStr s → toLowerCase s ∈ traitKeys owned.
Proof.
  intros Hin Hs. unfold traitKeys. apply list_elem_of_omap.
  exists a. by rewrite Hs.
Qed.

(** X5.  A record matches itself taken as a filter when its top-level
    names are in lower case, its trait names are strings no two of which
    agree up to case and none of which is [__proto__], case apart, and
    none of its values is [NaN]. *)
Theorem record_matches_itself m :
  (∀ k v, fields m !! k = Some v → k ≠ "attributes" →
          toLowerCase k = k ∧ strict_eq v v = true) →
  Forall named (default [] (attributes m)) →
  NoDup (traitKeys (default [] (attributes m))) →
  "__proto__" ∉ traitKeys (default [] (attributes m)) →
  Forall (λ a, strict_eq (value a) (value a) = true) (default [] (attributes m)) →
  filterNFTMetadata StringToNumber (Some m) (Some m) = Ok true.
Proof.
  intros Hfields Hnamed Hnd Hproto Hval. rewrite matches_present.
  assert (topLevelMet m m) as Htop.
  { intros k v Hk Hne. destruct (Hfields k v Hk Hne) as [-> Hv].
    unfold get. apply String.eqb_neq in Hne. rewrite Hne, Hk. simpl.
    by rewrite Hv. }
  apply topLevel_forallb in Htop. rewrite Htop.
  unfold attributesGuard.
  destruct (attributes m) as [owned|]; [|done]. simpl in *.
  rewrite Nat.ltb_irrefl. simpl.
  assert ((if (0 <? length owned)%nat then true else true) = true) as ->
    by by destruct (0 <? length owned)%nat.
  destruct (buildNested_total owned emptyObject Hnamed) as [nested Hn].
  rewrite Hn. simpl.
  apply compareNested_true, Forall_forall. intros a Hin.
  rewrite Forall_forall in Hnamed, Hval.
  destruct (Hnamed a Hin) as [s Hs]. exists s. split; [done|].
  assert (toLowerCase s ≠ "__proto__") as Hkey.
  { intros E. apply Hproto. rewrite <- E. by apply (traitKeys_elem owned a). }
  unfold read.
  rewrite (buildNested_lookup owned _ _ _ Hn Hkey),
          (lastTrait_unique owned a s Hnd Hin Hs).
  by apply strict_loose, Hval.
Qed.

Lemma passes_wanted_only owned fs wanted wanted' m :
  attributes m = Some owned →
  length wanted ≤ length wanted' →
  (∀ nested, Forall (passes StringToNumber nested) wanted' →
             Forall (passes StringToNumber nested) wanted) →
  filterNFTMetadata StringToNumber (Some m)
    (Some {| fields := fs; attributes := Some wanted' |}) = Ok true →
  filterNFTMetadata StringToNumber (Some m)
    (Some {| fields := fs; attributes := Some wanted |}) = Ok true.
Proof.
  intros Hm Hlen Himp.
  rewrite (matches_nested _ m {| fields := fs; attributes := Some wanted' |}
             owned wanted' Hm eq_refl).
  rewrite (matches_nested _ m {| fields := fs; attributes := Some wanted |}
             owned wanted Hm eq_refl).
  intros (Htop & Hl & nested & Hn & Hp).
  split; [done|]. split; [lia|]. exists nested. split; [done|by apply Himp].
Qed.

(** X6.  A filter that asks for fewer attributes matches what the filter
    that asks for more matches: dropping pairs from the attributes list
    of a filter keeps a result [true]. *)
Theorem fewer_attributes_still_match m fs wanted wanted' :
  wanted `sublist_of` wanted' →
  filterNFTMetadata StringToNumber (Some m)
    (Some {| fields := fs; attributes := Some wanted' |}) = Ok true →
  filterNFTMetadata StringToNumber (Some m)
    (Some {| fields := fs; attributes := Some wanted |}) = Ok true.
Proof.
  intros Hsub. destruct (attributes m) as [owned|] eqn:Hm.
  - apply (passes_wanted_only owned); [done|by apply sublist_length|].
    intros nested. rewrite !Forall_forall.
    intros H a Ha. eapply H, elem_of_sublist; done.
  - rewrite !matches_present. unfold attributesGuard, topLevelAttrs. simpl.
    rewrite Hm. destruct (forallb _ _); [|done].
    destruct wanted' as [|a' rest']; [by apply sublist_nil_r in Hsub as ->|].
    done.
Qed.

(** X7.  The order of the pairs in the attributes list of a filter has no
    part in whether the filter matches. *)
Theorem filter_attributes_order_irrelevant m fs wanted wanted' :
  wanted ≡ₚ wanted' →
  filterNFTMetadata StringToNumber (Some m)
    (Some {| fields := fs; attributes := Some wanted |}) = Ok true ↔
  filterNFTMetadata StringToNumber (Some m)
    (Some {| fields := fs; attributes := Some wanted' |}) = Ok true.
Proof.
  intros Hperm. destruct (attributes m) as [owned|] eqn:Hm.
  - split; apply (passes_wanted_only owned); try done.
    + by rewrite Hperm.
    + intros nested. by rewrite Hperm.
    + by rewrite Hperm.
    + intros nested. by rewrite Hperm.
  - rewrite !matches_present. unfold attributesGuard, topLevelAttrs. simpl.
    rewrite Hm. destruct (forallb _ _); [|done].
    destruct wanted as [|a rest].
    + by apply Permutation_nil_l in Hperm as ->.
    + destruct wanted' as [|a' rest']; [by apply Permutation_nil_r in Hperm|].
      done.
Qed.

(** X20.  Against a filter that is present an absent record never
    matches: the matcher returns [false] when the filter has no
    top-level field and raises a [TypeError] when it has one. *)
Theorem absent_record_never_matches f :
  filterNFTMetadata StringToNumber None (Some f)
  = match topLevelAttrs f with
    | [] => Ok false
    | _ :: _ => Throw TypeError
    end.
Proof.
  unfold filterNFTMetadata. rewrite compareTopLevel_absent.
  destruct (topLevelAttrs f); [|done]. simpl.
  by destruct (attributesGuard None f).
Qed.

End MatcherMore.

(** X1 on the record [{name: "x"}] and the filter [{Name: "x"}]. *)
Lemma filter_without_attributes_witness :
  ∃ b, filterNFTMetadata decimalToNumber (Some lowerName) (Some capitalName) = Ok b ∧
       (b = true ↔ topLevelMet lowerName capitalName).
Proof.
  apply (filter_without_attributes decimalToNumber lowerName capitalName).
  reflexivity.
Defined.

(** X2 on the record [{name: "x"}] with the field [image] set, under the
    filter [{Name: "x"}]. *)
Lemma unrelated_field_ignored_witness :
  filterNFTMetadata decimalToNumber
    (Some {| fields := <["image" := SStr "u"]> (fields lowerName);
             attributes := attributes lowerName |})
    (Some capitalName)
  = filterNFTMetadata decimalToNumber (Some lowerName) (Some capitalName).
Proof.
  apply (unrelated_field_ignored decimalToNumber lowerName capitalName "image"
           (SStr "u")).
  - discriminate.
  - intros k v Hk _. unfold capitalName in Hk. simpl in Hk.
    apply lookup_singleton_Some in Hk as [<- _]. vm_compute. discriminate.
Defined.

(** X3 on a record of two attributes and the filter for [Color: Red]. *)
Lemma named_attributes_never_raise_witness :
  ∃ b, filterNFTMetadata decimalToNumber (Some twoColors) (Some colorRed) = Ok b.
Proof.
  apply (named_attributes_never_raise decimalToNumber twoColors colorRed);
    simpl; repeat constructor; eexists; reflexivity.
Defined.

(** X4 on a record whose second attribute has no trait name, under a filter
    for its name and its first attribute. *)
Lemma unnamed_attribute_raises_witness :
  filterNFTMetadata decimalToNumber (Some twoTraits) (Some namedColorRed)
  = Throw TypeError.
Proof.
  apply (unnamed_attribute_raises decimalToNumber twoTraits namedColorRed
           [trait "Color" "Red";
            {| trait_type := SUndefined; value := SStr "Happy" |}]
           [trait "Color" "Red"]).
  - reflexivity.
  - reflexivity.
  - intros k v Hk _. unfold namedColorRed in Hk. simpl in Hk.
    apply lookup_singleton_Some in Hk as [<- <-]. vm_compute. reflexivity.
  - simpl. lia.
  - apply Exists_cons_tl, Exists_cons_hd. intros s. simpl. discriminate.
Defined.

(** X5 on the record [{name: "x", attributes: [Size: L, Color: Red]}]. *)
Lemma record_matches_itself_witness :
  filterNFTMetadata decimalToNumber (Some sizeAndColor) (Some sizeAndColor) = Ok true.
Proof.
  apply (record_matches_itself decimalToNumber sizeAndColor).
  - intros k v Hk _. unfold sizeAndColor in Hk. simpl in Hk.
    apply lookup_singleton_Some in Hk as [<- <-]. vm_compute. split; reflexivity.
  - simpl. repeat constructor; eexists; reflexivity.
  - apply (bool_decide_unpack _). vm_compute. reflexivity.
  - apply (bool_decide_unpack _). vm_compute. reflexivity.
  - simpl. repeat constructor.
Defined.

(** X6 on that record: the filter for [Size: L] and [Color: Red], and the
    filter for [Color: Red] alone. *)
Lemma fewer_attributes_still_match_witness :
  filterNFTMetadata decimalToNumber (Some sizeAndColor)
    (Some {| fields := ∅; attributes := Some [trait "color" "Red"] |}) = Ok true.
Proof.
  apply (fewer_attributes_still_match decimalToNumber sizeAndColor ∅
           [trait "color" "Red"] [trait "size" "L"; trait "color" "Red"]).
  - apply sublist_cons, sublist_skip, sublist_nil.
  - vm_compute. reflexivity.
Defined.

(** X7 on that record and the two orders of a filter of two pairs. *)
Lemma filter_attributes_order_irrelevant_witness :
  filterNFTMetadata decimalToNumber (Some sizeAndColor)
    (Some {| fields := ∅;
             attributes := Some [trait "size" "L"; trait "color" "Red"] |}) = Ok true
  ↔ filterNFTMetadata decimalToNumber (Some sizeAndColor)
      (Some {| fields := ∅;
               attributes := Some [trait "color" "Red"; trait "size" "L"] |}) = Ok true.
Proof.
  apply (filter_attributes_order_irrelevant decimalToNumber sizeAndColor ∅
           [trait "size" "L"; trait "color" "Red"]
           [trait "color" "Red"; trait "size" "L"]).
  apply perm_swap.
Defined.

(** ** More on the paging loop and the receipts *)

Section PagingMore.

Variable Source : Type.
Variable getAssetTransfers :
  Source → AssetTransfersParams → result AssetTransfersResponse * Source.

Arguments cursor : simpl never.
Arguments withPageKey : simpl never.
Arguments transactionConfig : simpl never.

Lemma cursor_not_empty response key : cursor response = Some key → key ≠ "".
Proof.
  unfold cursor. destruct (next_pageKey response) as [k|]; [|done].
  destruct (truthy_string k) eqn:E; [|done]. intros [= <-] ->. done.
Qed.

Lemma fetch_then_fail config src query pages e src' :
  PagesFail Source getAssetTransfers config src query pages e src' →
  ∀ fuel acc issued,
    length pages ≤ fuel →
    match getAssetTransfers src query with
    | (Ok response, src1) =>
        fetchRemaining Source getAssetTransfers fuel src1 config response
          (acc ++ transfers response) (issued ++ [query])
    | (Throw e, src1) =>
        Some {| outcome := Throw e; calls := issued ++ [query];
                source_after := src1 |}
    end
    = Some {| outcome := Throw e;
              calls := issued ++ query :: followUps config pages;
              source_after := src' |}.
Proof.
  induction 1 as [src query e src' Hget
                 |src query page key src1 pages e src' Hget Hc _ IH];
    intros fuel acc issued Hfuel; rewrite Hget; [done|].
  destruct fuel as [|fuel]; [simpl in Hfuel; lia|].
  specialize (IH fuel (acc ++ transfers page) (issued ++ [query])).
  unfold followUps in *. simpl. rewrite !Hc. simpl.
  rewrite IH by (simpl in Hfuel; lia).
  by rewrite <- !app_assoc.
Qed.

Lemma followUps_fail_length config src query pages e src' :
  PagesFail Source getAssetTransfers config src query pages e src' →
  length (followUps config pages) = length pages.
Proof.
  unfold followUps. induction 1 as [|? ? ? ? ? ? ? ? _ Hc _ IH]; simpl; [done|].
  rewrite Hc. simpl. by f_equal.
Qed.

Lemma fetchRemaining_endless :
  (∀ src query, ∃ page src',
      getAssetTransfers src query = (Ok page, src') ∧ is_Some (cursor page)) →
  ∀ fuel src config response acc issued,
    is_Some (cursor response) →
    fetchRemaining Source getAssetTransfers fuel src config response acc issued
    = None.
Proof.
  intros Hmore. induction fuel as [|fuel IH];
    intros src config response acc issued [key Hc]; simpl; rewrite Hc; [done|].
  destruct (Hmore src (withPageKey config key)) as (page & src' & -> & Hnext).
  by apply IH.
Qed.

Lemma loopQueries_shape fuel : ∀ src config response,
  ∃ keys, loopQueries getAssetTransfers fuel src config response
          = map (withPageKey config) keys ∧
          Forall (λ key, key ≠ "") keys ∧ length keys ≤ fuel.
Proof.
  induction fuel as [|fuel IH]; intros src config response; simpl;
    destruct (cursor response) as [key|] eqn:Hc;
    try (exists []; repeat split; [constructor | simpl; lia]).
  destruct (getAssetTransfers src (withPageKey config key))
    as [[response'|e] src'].
  - destruct (IH src' config response') as (keys & -> & Hkeys & Hlen).
    exists (key :: keys). split; [done|]. split; [|simpl; lia].
    constructor; [by eapply cursor_not_empty | done].
  - exists [key]. split; [done|]. split; [|simpl; lia].
    constructor; [by eapply cursor_not_empty | done].
Qed.

Lemma fetchRemaining_calls fuel : ∀ src config response acc issued d,
  fetchRemaining Source getAssetTransfers fuel src config response acc issued
  = Some d →
  calls Source d
  = issued ++ loopQueries getAssetTransfers fuel src config response.
Proof.
  induction fuel as [|fuel IH]; intros src config response acc issued d; simpl;
    destruct (cursor response) as [key|] eqn:Hc; try done.
  - intros [= <-]. simpl. by rewrite app_nil_r.
  - destruct (getAssetTransfers src (withPageKey config key))
      as [[response'|e] src'].
    + intros H. rewrite (IH _ _ _ _ _ _ H). by rewrite <- app_assoc.
    + by intros [= <-].
  - intros [= <-]. simpl. by rewrite app_nil_r.
Qed.

(** X8.  When a page fetch fails, after any number of pages fetched, the
    drain procedure ends with that failure and hands on none of the
    items it has gathered; it has called the source once for every page
    and once more, and the whole deployment flow fails the same way,
    with no receipt fetched. *)
Theorem drain_failure_aborts fuel src walletAddress pages e src' :
  PagesFail Source getAssetTransfers (transactionConfig walletAddress)
    src (transactionConfig walletAddress) pages e src' →
  length pages ≤ fuel →
  drainTransfers Source getAssetTransfers fuel src walletAddress
  = Some {| outcome := Throw e;
            calls := transactionConfig walletAddress
                     :: followUps (transactionConfig walletAddress) pages;
            source_after := src' |}
  ∧ length (followUps (transactionConfig walletAddress) pages) = length pages
  ∧ ∀ getTransactionReceipt order,
      contractDeploymentTransactions Source getAssetTransfers
        getTransactionReceipt fuel order src walletAddress
      = Some (Throw e).
Proof.
  intros Hpages Hfuel.
  assert (drainTransfers Source getAssetTransfers fuel src walletAddress
          = Some {| outcome := Throw e;
                    calls := transactionConfig walletAddress
                             :: followUps (transactionConfig walletAddress) pages;
                    source_after := src' |}) as Hdrain.
  { pose proof (fetch_then_fail _ _ _ _ _ _ Hpages fuel [] [] Hfuel) as H.
    unfold drainTransfers.
    destruct (getAssetTransfers src (transactionConfig walletAddress))
      as [[response|e0] src1]; exact H. }
  split; [done|]. split.
  - by eapply followUps_fail_length.
  - intros getTransactionReceipt order. unfold contractDeploymentTransactions.
    by rewrite Hdrain.
Qed.

(** X9.  Against a source that answers every query with a page carrying
    a cursor the drain procedure does not come to an end: no number of
    rounds of the loop is enough. *)
Theorem drain_never_ends fuel src walletAddress :
  (∀ src query, ∃ page src',
      getAssetTransfers src query = (Ok page, src') ∧ is_Some (cursor page)) →
  drainTransfers Source getAssetTransfers fuel src walletAddress = None.
Proof.
  intros Hmore. unfold drainTransfers.
  destruct (Hmore src (transactionConfig walletAddress))
    as (page & src' & -> & Hc).
  by apply fetchRemaining_endless.
Qed.

(** X10.  Whatever the source answers, and whether or not the loop comes
    to an end, the calls of the drain procedure within any number of
    rounds of its loop are these: first the query from block ["0x0"] to
    block ["latest"], from the address of the wallet, zero values
    included, of the category [external], with no page key; then, at most
    one a round, that same query with a page key that is not empty.  When
    the procedure ends, with the transfers or with a failure, these are
    the calls it has made. *)
Theorem drain_calls_shape fuel src walletAddress :
  ∃ keys,
    queriesWithin getAssetTransfers fuel src walletAddress
    = {| fromBlock := "0x0"; toBlock := "latest"; fromAddress := walletAddress;
         excludeZeroValue := false; category := ["external"]; pageKey := None |}
      :: map (λ key,
                {| fromBlock := "0x0"; toBlock := "latest";
                   fromAddress := walletAddress; excludeZeroValue := false;
                   category := ["external"]; pageKey := Some key |}) keys ∧
    Forall (λ key, key ≠ "") keys ∧
    length keys ≤ fuel ∧
    ∀ d, drainTransfers Source getAssetTransfers fuel src walletAddress = Some d →
         calls Source d = queriesWithin getAssetTransfers fuel src walletAddress.
Proof.
  assert (∀ d, drainTransfers Source getAssetTransfers fuel src walletAddress
               = Some d →
               calls Source d
               = queriesWithin getAssetTransfers fuel src walletAddress) as Hd.
  { intros d. unfold drainTransfers, queriesWithin.
    destruct (getAssetTransfers src (transactionConfig walletAddress))
      as [[response|e] src1].
    - intros H. by rewrite (fetchRemaining_calls _ _ _ _ _ _ _ H).
    - by intros [= <-]. }
  assert (∃ keys,
            queriesWithin getAssetTransfers fuel src walletAddress
            = transactionConfig walletAddress
              :: map (withPageKey (transactionConfig walletAddress)) keys ∧
            Forall (λ key, key ≠ "") keys ∧ length keys ≤ fuel)
    as (keys & Hq & Hkeys & Hlen).
  { unfold queriesWithin.
    destruct (getAssetTransfers src (transactionConfig walletAddress))
      as [[response|e] src1].
    - destruct (loopQueries_shape fuel src1 (transactionConfig walletAddress)
                  response) as (keys & -> & Hkeys & Hlen).
      by exists keys.
    - exists []. repeat split; [constructor | simpl; lia]. }
  exists keys. split; [exact Hq|]. by repeat split.
Qed.

End PagingMore.

Section ReceiptsMore.

Variable getTransactionReceipt : string → result (option TransactionReceipt).

Lemma settle_rejected {A} (promises : list (result A)) order : ∀ values,
  (∃ i e, i ∈ order ∧ promises !! i = Some (Throw e)) →
  ∃ e, settle order promises values = Throw e ∧ Throw e ∈ promises.
Proof.
  induction order as [|j order IH]; intros values (i & e & Hin & Hi).
  - by apply elem_of_nil in Hin.
  - simpl. destruct (promises !! j) as [[v|e0]|] eqn:Hj.
    + apply IH. exists i, e. split; [|done].
      apply elem_of_cons in Hin as [->|]; [congruence | done].
    + exists e0. split; [done|]. by eapply list_elem_of_lookup_2.
    + apply IH. exists i, e. split; [|done].
      apply elem_of_cons in Hin as [->|]; [congruence | done].
Qed.

(** X11.  When the receipt fetch of one deployment fails, the flow fails,
    in whatever order the fetches settle, with the failure of one of the
    fetches: it returns no list of the receipts that were fetched. *)
Theorem receipt_failure_fails_all order walletAddress drained failed e :
  order ≡ₚ seq 0 (length (deployments drained)) →
  failed ∈ deployments drained →
  getTransactionReceipt (tr_hash failed) = Throw e →
  ∃ failed' e',
    failed' ∈ deployments drained ∧
    getTransactionReceipt (tr_hash failed') = Throw e' ∧
    deploymentTransactions getTransactionReceipt order walletAddress drained
    = Some (Throw e').
Proof.
  intros Hperm Hin Hfail. unfold deploymentTransactions, PromiseAll.
  set (promises := map getTransactionReceipt (map tr_hash (deployments drained))).
  apply list_elem_of_lookup_1 in Hin as [i Hi].
  destruct (settle_rejected promises order
              (replicate (length promises) None)) as (e' & -> & He').
  { exists i, e. split.
    - rewrite Hperm. apply elem_of_seq. apply lookup_lt_Some in Hi. lia.
    - unfold promises. rewrite !list_lookup_fmap, Hi. simpl. by rewrite Hfail. }
  unfold promises in He'.
  apply list_elem_of_fmap in He' as (hash & He' & Hhash).
  apply list_elem_of_fmap in Hhash as (failed' & -> & Hin').
  by exists failed', e'.
Qed.

End ReceiptsMore.

(** X8 on a source whose second page cannot be fetched. *)
Lemma drain_failure_aborts_witness :
  drainTransfers nat secondPageFails 1 0 "0xwallet"
  = Some {| outcome := Throw (Rejected "timeout");
            calls := transactionConfig "0xwallet"
                     :: followUps (transactionConfig "0xwallet") [page1];
            source_after := 2 |}
  ∧ length (followUps (transactionConfig "0xwallet") [page1]) = length [page1]
  ∧ ∀ getTransactionReceipt order,
      contractDeploymentTransactions nat secondPageFails getTransactionReceipt
        1 order 0 "0xwallet"
      = Some (Throw (Rejected "timeout")).
Proof.
  apply (drain_failure_aborts nat secondPageFails 1 0 "0xwallet" [page1]
           (Rejected "timeout") 2).
  - eapply PagesFail_later; [reflexivity | reflexivity |].
    apply PagesFail_now. reflexivity.
  - simpl. lia.
Defined.

(** X9 on the source that always answers with a page and a cursor, given
    a thousand rounds. *)
Lemma drain_never_ends_witness :
  drainTransfers nat endless 1000 0 "0xwallet" = None.
Proof.
  apply (drain_never_ends nat endless 1000 0 "0xwallet").
  intros src query. exists page1, (S src). split; [reflexivity|].
  exists "k1". reflexivity.
Defined.

(** X10 on the source that always answers with a page and the cursor
    ["k1"], within two rounds of the loop. *)
Lemma drain_calls_shape_witness :
  queriesWithin endless 2 0 "0xwallet"
  = [transactionConfig "0xwallet";
     withPageKey (transactionConfig "0xwallet") "k1";
     withPageKey (transactionConfig "0xwallet") "k1"]
  ∧ ∃ keys,
      queriesWithin endless 2 0 "0xwallet"
      = {| fromBlock := "0x0"; toBlock := "latest"; fromAddress := "0xwallet";
           excludeZeroValue := false; category := ["external"]; pageKey := None |}
        :: map (λ key,
                  {| fromBlock := "0x0"; toBlock := "latest";
                     fromAddress := "0xwallet"; excludeZeroValue := false;
                     category := ["external"]; pageKey := Some key |}) keys ∧
      Forall (λ key, key ≠ "") keys ∧
      length keys ≤ 2 ∧
      ∀ d, drainTransfers nat endless 2 0 "0xwallet" = Some d →
           calls nat d = queriesWithin endless 2 0 "0xwallet".
Proof.
  split; [reflexivity|]. apply (drain_calls_shape nat endless 2 0 "0xwallet").
Defined.

(** X11 on four transfers, the receipt of the fourth failing, the second
    settling last. *)
Lemma receipt_failure_fails_all_witness :
  ∃ failed' e',
    failed' ∈ deployments [transfer "0xa1" (Some "0xb"); transfer "0xa2" None;
                           transfer "0xa3" (Some "0xb"); transfer "0xa4" None] ∧
    receiptUnlessA4 (tr_hash failed') = Throw e' ∧
    deploymentTransactions receiptUnlessA4 [1; 0] "0xwallet"
      [transfer "0xa1" (Some "0xb"); transfer "0xa2" None;
       transfer "0xa3" (Some "0xb"); transfer "0xa4" None]
    = Some (Throw e').
Proof.
  apply (receipt_failure_fails_all receiptUnlessA4 [1; 0] "0xwallet"
           [transfer "0xa1" (Some "0xb"); transfer "0xa2" None;
            transfer "0xa3" (Some "0xb"); transfer "0xa4" None]
           (transfer "0xa4" None) (Rejected "timeout")).
  - vm_compute. apply perm_swap.
  - vm_compute. apply list_elem_of_further, list_elem_of_here.
  - reflexivity.
Defined.

(** X12 on the source of three pages, whose transfers hold two
    deployments. *)
Lemma contractDeploymentTransactions_pages_witness :
  contractDeploymentTransactions nat threePages receiptOf 2 [1; 0] 0 "0xwallet"
  = Some (Ok [deploymentOf "0xwallet" (Some {| transactionHash := "0xa2" |});
              deploymentOf "0xwallet" None]).
Proof.
  apply (contractDeploymentTransactions_pages receiptOf nat threePages 2 [1; 0] 0
           "0xwallet" [page1; page2; page3] 3
           [Some {| transactionHash := "0xa2" |}; None]).
  - eapply Pages_next; [reflexivity | reflexivity |].
    eapply Pages_next; [reflexivity | reflexivity |].
    apply Pages_last; reflexivity.
  - simpl. lia.
  - simpl. apply perm_swap.
  - vm_compute. repeat constructor.
Defined.

(** ** More on the token balance and the NFT inventory *)

Section InventoryMore.

Variable StringToNumber : string → float.
Variable NumberToString : float → string.
Variable StringToBigInt : string → option Z.
Variable getTokenMetadata : string → result TokenMetadataResponse.
Variable getTokenBalances : string → list string → result (list TokenBalance).
Variable getNftsForOwner : string → list string → result (list OwnedNft).

(** X13.  Whatever amount [erc20] returns is either [{0, 0}] or made of
    the decimals of the token metadata, a number other than zero, and of
    the balance string, not empty and converted by [BigInt], of an entry
    of the balance list whose address is the contract address, character
    for character. *)
Theorem erc20_zero_or_held wallet contract amount :
  erc20 StringToBigInt getTokenMetadata getTokenBalances (Some wallet) contract
  = Ok amount →
  amount = {| balance := 0; decimals := 0 |} ∨
  ∃ metadata tokenBalances tb raw,
    getTokenMetadata contract = Ok metadata ∧
    getTokenBalances wallet [contract] = Ok tokenBalances ∧
    tb ∈ tokenBalances ∧
    contractAddress tb = contract ∧
    tokenBalance tb = Some raw ∧ raw ≠ "" ∧
    StringToBigInt raw = Some (balance amount) ∧
    md_decimals metadata = Some (decimals amount) ∧
    truthy_number (decimals amount) = true.
Proof.
  unfold erc20.
  destruct (getTokenMetadata contract) as [metadata|e] eqn:Hmd; [|done].
  simpl. destruct (getTokenBalances wallet [contract]) as [tbs|e] eqn:Hb; [|done].
  simpl. rewrite scanTokenBalances_find.
  destruct (md_decimals metadata) as [d|] eqn:Hd; [|intros [= <-]; by left].
  destruct (List.find (held contract) tbs) as [tb|] eqn:Hfind;
    [|intros [= <-]; by left].
  destruct (truthy_number d) eqn:Ht; [|intros [= <-]; by left].
  apply find_some in Hfind as [Hin Hheld]. unfold held in Hheld.
  apply andb_true_iff in Hheld as [Haddr Hraw].
  destruct (tokenBalance tb) as [raw|] eqn:Htb; [|done]. simpl.
  unfold BigInt. destruct (StringToBigInt raw) as [z|] eqn:Hz; [|done].
  intros [= <-]. right. exists metadata, tbs, tb, raw. simpl.
  repeat split; try done.
  - by apply list_elem_of_In.
  - by apply String.eqb_eq.
  - intros ->. done.
Qed.

Lemma inspectAll_tally f p : ∀ owned output,
  (∀ n, n ∈ owned → nftMatches StringToNumber NumberToString f n = Ok (p n)) →
  inspectAll StringToNumber NumberToString f owned output
  = Ok (foldl (addToOutput StringToNumber) output (List.filter p owned)).
Proof.
  induction owned as [|n rest IH]; intros output H; simpl; [done|].
  unfold inspect. rewrite (H n) by left. simpl.
  rewrite IH by (intros n' Hn'; apply H; by right).
  by destruct (p n).
Qed.

Lemma nftData_tally selected : ∀ output,
  nftData (foldl (addToOutput StringToNumber) output selected)
  = nftData output ++ omap (entryOf StringToNumber) selected.
Proof.
  induction selected as [|n rest IH]; intros output; simpl;
    [by rewrite app_nil_r|].
  rewrite IH. unfold entryOf at 2. simpl.
  destruct (raw_metadata n); simpl; [by rewrite <- app_assoc | done].
Qed.

Lemma inspectAll_raises f p e : ∀ before bad after output,
  (∀ n, n ∈ before → nftMatches StringToNumber NumberToString f n = Ok (p n)) →
  nftMatches StringToNumber NumberToString f bad = Throw e →
  inspectAll StringToNumber NumberToString f (before ++ bad :: after) output
  = Throw e.
Proof.
  induction before as [|n rest IH]; intros bad after output H Hbad; simpl.
  - unfold inspect. by rewrite Hbad.
  - unfold inspect. rewrite (H n) by left. simpl.
    apply IH; [|done]. intros n' Hn'. apply H. by right.
Qed.

(** X14.  When the test of every owned NFT returns a verdict, the
    inventory raises nothing and [nftData] holds the tagged metadata of
    the NFTs that match and have metadata, in the order of the
    inventory, one entry for each: the output is the tally of the
    matching NFTs. *)
Theorem inventory_of_matches wallet contract f owned p :
  getNftsForOwner wallet [contract] = Ok owned →
  (∀ n, n ∈ owned → nftMatches StringToNumber NumberToString f n = Ok (p n)) →
  ∃ output,
    nft StringToNumber NumberToString getNftsForOwner (Some wallet) contract f
    = Ok output ∧
    output = foldl (addToOutput StringToNumber) emptyOutput (List.filter p owned) ∧
    nftData output = omap (entryOf StringToNumber) (List.filter p owned).
Proof.
  intros Hget Hall. eexists. unfold nft. rewrite Hget. simpl.
  rewrite (inspectAll_tally f p owned emptyOutput Hall).
  split; [done|]. split; [done|]. by rewrite nftData_tally.
Qed.

(** X15.  Under a filter with no top-level field and no attributes list,
    as the empty filter [{}], every owned NFT counts: the inventory
    raises nothing and [nftData] holds the tagged metadata of every NFT
    that has metadata. *)
Theorem unconstrained_filter_counts_all wallet contract f owned :
  topLevelAttrs f = [] → attributes f = None →
  getNftsForOwner wallet [contract] = Ok owned →
  ∃ output,
    nft StringToNumber NumberToString getNftsForOwner (Some wallet) contract
      (Some f) = Ok output ∧
    output = foldl (addToOutput StringToNumber) emptyOutput owned ∧
    nftData output = omap (entryOf StringToNumber) owned.
Proof.
  intros Htop Hattr Hget.
  assert (fields f !! "tokenId" = None) as Hid.
  { destruct (fields f !! "tokenId") as [v|] eqn:E; [|done].
    assert (("tokenId", v) ∈ topLevelAttrs f) as Hin.
    { apply list_elem_of_filter. split; [done|]. by apply elem_of_map_to_list. }
    rewrite Htop in Hin. by apply elem_of_nil in Hin. }
  assert (∀ n, n ∈ owned →
            nftMatches StringToNumber NumberToString (Some f) n = Ok ((λ _, true) n))
    as Hall.
  { intros n _. unfold nftMatches. rewrite Hid.
    destruct (raw_metadata n) as [m|]; [|done].
    assert (filterNFTMetadata StringToNumber (Some m) (Some f) = Ok true) as ->;
      [|done].
    rewrite matches_present, Htop. simpl.
    unfold attributesGuard. rewrite Hattr. by destruct (attributes m). }
  eexists. unfold nft. rewrite Hget. simpl.
  rewrite (inspectAll_tally (Some f) (λ _, true) owned emptyOutput Hall).
  assert (List.filter (λ _ : OwnedNft, true) owned = owned) as ->.
  { clear. induction owned as [|n rest IH]; simpl; [done | by rewrite IH]. }
  split; [done|]. split; [done|]. by rewrite nftData_tally.
Qed.

(** X16.  With an absent filter the inventory of a wallet that owns
    nothing for the contract is the empty output, and the inventory of a
    wallet that owns an NFT raises a [TypeError]. *)
Theorem absent_filter_inventory wallet contract owned :
  getNftsForOwner wallet [contract] = Ok owned →
  nft StringToNumber NumberToString getNftsForOwner (Some wallet) contract None
  = match owned with
    | [] => Ok emptyOutput
    | _ :: _ => Throw TypeError
    end.
Proof.
  intros Hget. unfold nft. rewrite Hget. simpl.
  destruct owned as [|n rest]; [done|].
  apply (inspectAll_raises None (λ _, true) TypeError [] n rest emptyOutput);
    [|done].
  intros n' Hn'. by apply elem_of_nil in Hn'.
Qed.

(** X17.  When the test of one owned NFT raises, the tests before it
    having returned their verdicts, the inventory raises the same and
    returns none of what it has tallied. *)
Theorem one_failure_fails_inventory wallet contract f before bad after e p :
  getNftsForOwner wallet [contract] = Ok (before ++ bad :: after) →
  (∀ n, n ∈ before → nftMatches StringToNumber NumberToString f n = Ok (p n)) →
  nftMatches StringToNumber NumberToString f bad = Throw e →
  nft StringToNumber NumberToString getNftsForOwner (Some wallet) contract f
  = Throw e.
Proof.
  intros Hget Hbefore Hbad. unfold nft. rewrite Hget. simpl.
  by apply (inspectAll_raises f p).
Qed.

End InventoryMore.

(** X13 on a balance list whose second entry is that of the contract. *)
Lemma erc20_zero_or_held_witness :
  {| balance := 16; decimals := 18 |} = {| balance := 0; decimals := 0 |} ∨
  ∃ metadata tokenBalances tb raw,
    decimals18 "0xc" = Ok metadata ∧
    balanceSixteen "0xwallet" ["0xc"] = Ok tokenBalances ∧
    tb ∈ tokenBalances ∧
    contractAddress tb = "0xc" ∧
    tokenBalance tb = Some raw ∧ raw ≠ "" ∧
    literalToBigInt raw = Some (balance {| balance := 16; decimals := 18 |}) ∧
    md_decimals metadata = Some (decimals {| balance := 16; decimals := 18 |}) ∧
    truthy_number (decimals {| balance := 16; decimals := 18 |}) = true.
Proof.
  apply (erc20_zero_or_held literalToBigInt decimals18 balanceSixteen
           "0xwallet" "0xc" {| balance := 16; decimals := 18 |}).
  vm_compute. reflexivity.
Defined.

(** X14 on an inventory of three NFTs under the empty filter. *)
Lemma inventory_of_matches_witness :
  ∃ output,
    nft decimalToNumber integerToString ownsThree (Some "0xwallet") "0xnft"
      (Some emptyFilter) = Ok output ∧
    output = foldl (addToOutput decimalToNumber) emptyOutput
               (List.filter (λ _, true) [seven; bare; oddBalance]) ∧
    nftData output = omap (entryOf decimalToNumber)
                       (List.filter (λ _, true) [seven; bare; oddBalance]).
Proof.
  apply (inventory_of_matches decimalToNumber integerToString ownsThree
           "0xwallet" "0xnft" (Some emptyFilter) [seven; bare; oddBalance]
           (λ _, true)).
  - reflexivity.
  - intros n Hn. repeat (apply elem_of_cons in Hn as [->|Hn]);
      [vm_compute; reflexivity .. | by apply elem_of_nil in Hn].
Defined.

(** X15 on that inventory and the empty filter. *)
Lemma unconstrained_filter_counts_all_witness :
  ∃ output,
    nft decimalToNumber integerToString ownsThree (Some "0xwallet") "0xnft"
      (Some emptyFilter) = Ok output ∧
    output = foldl (addToOutput decimalToNumber) emptyOutput
               [seven; bare; oddBalance] ∧
    nftData output = omap (entryOf decimalToNumber) [seven; bare; oddBalance].
Proof.
  apply (unconstrained_filter_counts_all decimalToNumber integerToString ownsThree
           "0xwallet" "0xnft" emptyFilter [seven; bare; oddBalance]).
  - vm_compute. reflexivity.
  - reflexivity.
  - reflexivity.
Defined.

(** X16 on a wallet that owns one NFT. *)
Lemma absent_filter_inventory_witness :
  nft decimalToNumber integerToString ownsBare (Some "0xwallet") "0xnft" None
  = Throw TypeError.
Proof.
  apply (absent_filter_inventory decimalToNumber integerToString ownsBare
           "0xwallet" "0xnft" [bare]).
  reflexivity.
Defined.

(** X17 on an inventory whose second NFT has an attribute with no trait
    name, under the filter for [Color: Red]. *)
Lemma one_failure_fails_inventory_witness :
  nft decimalToNumber integerToString ownsMalformed (Some "0xwallet") "0xnft"
    (Some colorRed) = Throw TypeError.
Proof.
  apply (one_failure_fails_inventory decimalToNumber integerToString ownsMalformed
           "0xwallet" "0xnft" (Some colorRed) [seven] malformed [bare] TypeError
           (λ _, false)).
  - reflexivity.
  - intros n Hn. apply elem_of_cons in Hn as [->|Hn];
      [vm_compute; reflexivity | by apply elem_of_nil in Hn].
  - vm_compute. reflexivity.
Defined.

(** X18 on the filter [{tokenId: "7"}] and the NFT of token id "7", whose
    metadata is [{name: "x"}]. *)
Lemma token_id_filter_rejects_metadata_witness :
  nftMatches decimalToNumber integerToString (Some tokenSeven) seven = Ok false.
Proof.
  apply (token_id_filter_rejects_metadata decimalToNumber integerToString
           tokenSeven seven lowerName (SStr "7")).
  - reflexivity.
  - reflexivity.
  - reflexivity.
  - vm_compute. reflexivity.
Defined.

(** X19 on the filter [{tokenId: "7"}] and the NFT of token id "7" with no
    metadata. *)
Lemma matched_token_id_witness :
  ∃ s, toStringOf integerToString (SStr "7") = Ok s ∧ tokenId bare = s.
Proof.
  apply (matched_token_id decimalToNumber integerToString tokenSeven bare (SStr "7")).
  - reflexivity.
  - reflexivity.
  - vm_compute. reflexivity.
Defined.
